(** * gigaanalysis.data : the [Data] container, embedded in Rocq

    A shallow embedding of [PhD/giga_dash/gigaanalysis/data.py]: the
    two-column container [Data], its constructor, its arithmetic protocol,
    indexing, cutting, stripping, sorting, resampling, and the free functions
    [sum_data], [mean], [save_arrays], [save_data] and [save_dict].

    Numbers.  A numpy [float64] is modelled by [npfloat]: an exact rational
    or one of the three IEEE specials (+inf, -inf, NaN).  Comparisons and the
    special cases of arithmetic follow IEEE 754; rounding of finite results
    and the sign of zero are not modelled.

    Exceptions.  A Python function that may raise returns a [result]. *)

From Stdlib Require Import List ZArith QArith Qabs Qround Qreduction Bool Lia.
From Stdlib Require Import Permutation.
From Stdlib Require String.
Import ListNotations.

(** ** Exceptions *)

(** The exceptions the module can raise.  The source raises the built-in
    [ValueError] at every validation site; the three kinds that the
    documentation tells apart are kept apart here by the raise site:
    [ShapeError] (wrong dimension, column count or length),
    [MismatchedAxisError] (two [Data] with different x) and [RangeError]
    (a value outside the x range, or [x_min > x_max]).  [ValueError] is a
    [ValueError] raised inside numpy or scipy. *)
Inductive error : Set :=
| ShapeError
| MismatchedAxisError
| RangeError
| ValueError
| OverflowError
| TypeError
| IndexError
| AttributeError
| NameError.

Inductive result (A : Type) : Type :=
| Ok (a : A)
| Raise (e : error).

Arguments Ok {A} a.
Arguments Raise {A} e.

Definition bind {A B : Type} (c : result A) (k : A -> result B) : result B :=
  match c with
  | Ok a => k a
  | Raise e => Raise e
  end.

Notation "x <- c ;; k" := (bind c (fun x => k))
  (at level 61, c at next level, right associativity).

(** ** Numbers *)

Inductive npfloat : Set :=
| Fin (q : Q)
| PInf
| NInf
| NaN.

Definition isfinite (v : npfloat) : bool :=
  match v with Fin _ => true | _ => false end.

Definition isnan (v : npfloat) : bool :=
  match v with NaN => true | _ => false end.

Definition Qlt_bool (p q : Q) : bool := negb (Qle_bool q p).

(** [a <= b], false as soon as one side is NaN. *)
Definition fle (a b : npfloat) : bool :=
  match a, b with
  | NaN, _ | _, NaN => false
  | NInf, _ => true
  | _, PInf => true
  | Fin p, Fin q => Qle_bool p q
  | _, _ => false
  end.

(** [a < b]. *)
Definition flt (a b : npfloat) : bool :=
  match a, b with
  | NaN, _ | _, NaN => false
  | NInf, NInf => false
  | NInf, _ => true
  | PInf, _ => false
  | Fin _, NInf => false
  | Fin _, PInf => true
  | Fin p, Fin q => Qlt_bool p q
  end.

Definition fgt (a b : npfloat) : bool := flt b a.

(** [a == b]. *)
Definition feq (a b : npfloat) : bool :=
  match a, b with
  | Fin p, Fin q => Qeq_bool p q
  | PInf, PInf => true
  | NInf, NInf => true
  | _, _ => false
  end.

Definition Qsign (q : Q) : Z := Z.sgn (Qnum q).

Definition fneg (a : npfloat) : npfloat :=
  match a with
  | Fin p => Fin (Qred (- p))
  | PInf => NInf
  | NInf => PInf
  | NaN => NaN
  end.

Definition fabs (a : npfloat) : npfloat :=
  match a with
  | Fin p => Fin (Qred (Qabs p))
  | PInf | NInf => PInf
  | NaN => NaN
  end.

Definition fadd (a b : npfloat) : npfloat :=
  match a, b with
  | NaN, _ | _, NaN => NaN
  | Fin p, Fin q => Fin (Qred (p + q))
  | PInf, NInf | NInf, PInf => NaN
  | PInf, _ | _, PInf => PInf
  | NInf, _ | _, NInf => NInf
  end.

Definition fsub (a b : npfloat) : npfloat := fadd a (fneg b).

(** The infinity of sign [s], NaN for [s = 0]. *)
Definition inf_of_sign (s : Z) : npfloat :=
  match s with
  | Z0 => NaN
  | Zpos _ => PInf
  | Zneg _ => NInf
  end.

Definition fsign (a : npfloat) : Z :=
  match a with
  | Fin p => Qsign p
  | PInf => 1
  | NInf => -1
  | NaN => 0
  end.

Definition fmul (a b : npfloat) : npfloat :=
  match a, b with
  | NaN, _ | _, NaN => NaN
  | Fin p, Fin q => Fin (Qred (p * q))
  | _, _ => inf_of_sign (fsign a * fsign b)
  end.

Definition fdiv (a b : npfloat) : npfloat :=
  match a, b with
  | NaN, _ | _, NaN => NaN
  | Fin p, Fin q =>
      if Qeq_bool q 0 then inf_of_sign (Qsign p) else Fin (Qred (p / q))
  | Fin _, _ => Fin 0
  | _, Fin q => if Qeq_bool q 0 then a else inf_of_sign (fsign a * Qsign q)
  | _, _ => NaN
  end.

(** [np.ceil] and [np.floor]. *)
Definition fceil (a : npfloat) : npfloat :=
  match a with
  | Fin p => Fin (inject_Z (Qceiling p))
  | _ => a
  end.

Definition ffloor (a : npfloat) : npfloat :=
  match a with
  | Fin p => Fin (inject_Z (Qfloor p))
  | _ => a
  end.

(** Python's [round] on a rational: to the nearest integer, ties to even. *)
Definition Qround_half_even (q : Q) : Z :=
  let f := Qfloor q in
  let r := (q - inject_Z f)%Q in
  if Qlt_bool r (1 # 2) then f
  else if Qlt_bool (1 # 2) r then (f + 1)%Z
  else if Z.even f then f else (f + 1)%Z.

(** [int(round(v))]: NaN cannot be converted ([ValueError]), an infinity
    overflows ([OverflowError]). *)
Definition int_round (a : npfloat) : result Z :=
  match a with
  | Fin p => Ok (Qround_half_even p)
  | NaN => Raise ValueError
  | _ => Raise OverflowError
  end.

Definition of_Z (z : Z) : npfloat := Fin (inject_Z z).

(** Truth value of a float: false for zero only. *)
Definition ftruthy (a : npfloat) : bool :=
  match a with
  | Fin p => negb (Qeq_bool p 0)
  | _ => true
  end.

(** numpy's sorting order ([a < b], with NaN after everything else); it is
    the order of [np.argsort] and [np.searchsorted]. *)
Definition np_lt (a b : npfloat) : bool :=
  flt a b || (isnan b && negb (isnan a)).

(** [np.min] and [np.max] of a 1-D array: NaN wins, an empty array raises. *)
Definition fmin2 (a b : npfloat) : npfloat :=
  if isnan a then a else if isnan b then b else if flt b a then b else a.

Definition fmax2 (a b : npfloat) : npfloat :=
  if isnan a then a else if isnan b then b else if flt a b then b else a.

Definition np_min (l : list npfloat) : result npfloat :=
  match l with
  | [] => Raise ValueError
  | v :: t => Ok (fold_left fmin2 t v)
  end.

Definition np_max (l : list npfloat) : result npfloat :=
  match l with
  | [] => Raise ValueError
  | v :: t => Ok (fold_left fmax2 t v)
  end.

(** [np.array_equal] on two 1-D arrays: same length and [==] everywhere. *)
Fixpoint array_equal (l1 l2 : list npfloat) : bool :=
  match l1, l2 with
  | [], [] => true
  | a :: t1, b :: t2 => feq a b && array_equal t1 t2
  | _, _ => false
  end.

(** ** Arrays *)

(** An [np.ndarray] of floats: its shape and its elements in row-major
    order.  [ndim] and [size] are numpy's attributes of the same name. *)
Record ndarray : Set := mk_ndarray {
  shape : list nat;
  data : list npfloat
}.

Definition ndim (a : ndarray) : nat := length (shape a).

Definition size (a : ndarray) : nat := fold_right Nat.mul 1%nat (shape a).

(** A 0-D, a 1-D and an (N, 2) array. *)
Definition arr0 (v : npfloat) : ndarray := mk_ndarray [] [v].

Definition arr1 (l : list npfloat) : ndarray := mk_ndarray [length l] l.

Fixpoint flatten_rows (rows : list (npfloat * npfloat)) : list npfloat :=
  match rows with
  | [] => []
  | (a, b) :: t => a :: b :: flatten_rows t
  end.

Definition arr2 (rows : list (npfloat * npfloat)) : ndarray :=
  mk_ndarray [length rows; 2%nat] (flatten_rows rows).

(** The rows of a two-column array, read off its row-major elements. *)
Fixpoint rows_of (l : list npfloat) : list (npfloat * npfloat) :=
  match l with
  | a :: b :: t => (a, b) :: rows_of t
  | _ => []
  end.

(** [values[:, 0]] and [values[:, 1]]. *)
Definition column0 (rows : list (npfloat * npfloat)) : list npfloat :=
  map fst rows.

Definition column1 (rows : list (npfloat * npfloat)) : list npfloat :=
  map snd rows.

(** [np.concatenate([a[:, None], b[:, None]], axis=1)] for two 1-D arrays of
    the same size. *)
Definition concatenate_columns (a b : ndarray) : ndarray :=
  mk_ndarray [size a; 2%nat] (flatten_rows (combine (data a) (data b))).

(** [np.isfinite(values).any(axis=1)]: the mask of the rows that hold at
    least one finite value. *)
Definition isfinite_any (row : npfloat * npfloat) : bool :=
  isfinite (fst row) || isfinite (snd row).

(** [np.argsort(keys)]: the indices of [keys] in numpy's sorting order, by
    insertion.  numpy's default sort leaves the order of equal keys
    unspecified; the model keeps them in their original order, which is also
    what the merge sort asked for by scipy does. *)
Fixpoint insert_idx (keys : list npfloat) (i : nat) (sorted : list nat)
  : list nat :=
  match sorted with
  | [] => [i]
  | j :: t =>
      if np_lt (nth j keys NaN) (nth i keys NaN) then j :: insert_idx keys i t
      else i :: j :: t
  end.

Definition argsort (keys : list npfloat) : list nat :=
  fold_right (insert_idx keys) [] (seq 0 (length keys)).

(** [a[pos]] for a list of positions (an integer-array index). *)
Fixpoint take {A : Type} (l : list A) (pos : list nat) : list A :=
  match pos with
  | [] => []
  | i :: t =>
      match nth_error l i with
      | Some v => v :: take l t
      | None => take l t
      end
  end.

(** [a[lo:hi]] for two indices that are already within bounds. *)
Definition slice {A : Type} (l : list A) (lo hi : nat) : list A :=
  firstn (hi - lo) (skipn lo l).

(** [np.searchsorted(a, v, side)]: numpy's binary search.  [go_right e]
    tells whether the search continues to the right of an element [e]:
    [e < v] for [side='left'], [e <= v] (that is, not [v < e]) for
    [side='right'], both in numpy's sorting order. *)
Inductive side : Set := Left | Right.

Definition go_right (s : side) (v e : npfloat) : bool :=
  match s with
  | Left => np_lt e v
  | Right => negb (np_lt v e)
  end.

Fixpoint binsearch (p : npfloat -> bool) (a : list npfloat)
  (fuel min_idx max_idx : nat) : nat :=
  match fuel with
  | O => min_idx
  | S fuel' =>
      if (min_idx <? max_idx)%nat then
        let mid := (min_idx + Nat.div2 (max_idx - min_idx))%nat in
        if p (nth mid a NaN) then binsearch p a fuel' (S mid) max_idx
        else binsearch p a fuel' min_idx mid
      else min_idx
  end.

Definition searchsorted (a : list npfloat) (v : npfloat) (s : side) : nat :=
  binsearch (go_right s v) a (length a) 0 (length a).

(** ** The container *)

(** [Data]: the attributes set by [__init__]. *)
Record Data : Set := mk_Data {
  values : list (npfloat * npfloat);
  x : list npfloat;
  y : list npfloat;
  both : list npfloat * list npfloat
}.

(** What [__init__] accepts as [values]: a [Data] or something array-like. *)
Inductive array_like : Set :=
| OfData (d : Data)
| OfArray (a : ndarray).

(** The values of [strip_sort] that [__init__] tells apart; any other truthy
    value behaves as [True]. *)
Inductive strip_sort_opt : Set := SS_False | SS_True | SS_strip | SS_sort.

(** [Data.__init__] up to the assignment of the attributes, that is without
    the final [interp_full] step (which [to_even] performs through a nested
    [__init__] that has [interp_full=None]). *)
Definition init_attrs (values0 : array_like) (split_y : option ndarray)
  (strip_sort : strip_sort_opt) : result Data :=
  let values1 :=
    match values0 with
    | OfData d => arr2 (values d)
    | OfArray a => a
    end in
  values2 <-
    match split_y with
    | None => Ok values1
    | Some sy =>
        if negb (ndim values1 =? 1)%nat then Raise ShapeError
        else if negb (ndim sy =? 1)%nat then Raise ShapeError
        else if negb (size values1 =? size sy)%nat then
          (* the message reads [split_y.szie], which numpy does not have *)
          Raise AttributeError
        else Ok (concatenate_columns values1 sy)
    end ;;
  if negb (ndim values2 =? 2)%nat then Raise ShapeError
  else if negb (nth 1 (shape values2) 0 =? 2)%nat then Raise ShapeError
  else
    let rows := rows_of (data values2) in
    let rows' :=
      match strip_sort with
      | SS_False => rows
      | SS_strip => filter isfinite_any rows
      | SS_sort => take rows (argsort (column0 rows))
      | SS_True =>
          let stripped := filter isfinite_any rows in
          take stripped (argsort (column0 stripped))
      end in
    Ok (mk_Data rows' (column0 rows') (column1 rows')
          (column0 rows', column1 rows')).

(** [len(d)] and [bool(d)]. *)
Definition Data_len (self : Data) : nat := length (x self).

Definition Data_bool (self : Data) : bool :=
  negb (2 * length (values self) =? 0)%nat.

(** ** The arithmetic protocol *)

(** The right-hand operand of an operator: a [Data], something array-like,
    or an object that [np.asarray(other, dtype=...)] refuses. *)
Inductive operand : Set :=
| OpData (d : Data)
| OpArray (a : ndarray)
| OpOther.

(** [Data.__maths_check]. *)
Definition maths_check (self : Data) (other : operand) : result ndarray :=
  match other with
  | OpData o =>
      if array_equal (x self) (x o) then Ok (arr1 (y o))
      else Raise MismatchedAxisError
  | OpOther => Raise TypeError
  | OpArray a =>
      if (size a =? 1)%nat then Ok a
      else if negb (ndim a =? 1)%nat then Raise ShapeError
      else if negb (size a =? length (x self))%nat then Raise ShapeError
      else Ok a
  end.

(** [ys op other] for a numpy binary ufunc [op], with numpy's broadcasting of
    a 1-D array [ys] against an array that has one element or one
    dimension. *)
Definition ufunc2 (op : npfloat -> npfloat -> npfloat) (ys : list npfloat)
  (other : ndarray) : result ndarray :=
  if (size other =? 1)%nat then
    let c := hd NaN (data other) in
    let out := map (fun v => op v c) ys in
    Ok (mk_ndarray (repeat 1%nat (ndim other - 1) ++ [length ys]) out)
  else if (ndim other =? 1)%nat then
    if (length ys =? size other)%nat then
      Ok (arr1 (map (fun p => op (fst p) (snd p)) (combine ys (data other))))
    else if (length ys =? 1)%nat then
      Ok (arr1 (map (fun v => op (hd NaN ys) v) (data other)))
    else Raise ValueError
  else Raise ValueError.

(** The body shared by the binary operators:
    [other = self.__maths_check(other, ...)], then
    [return Data(self.x, self.y op other)]. *)
Definition Data_binop (op : npfloat -> npfloat -> npfloat) (self : Data)
  (other : operand) : result Data :=
  o <- maths_check self other ;;
  r <- ufunc2 op (y self) o ;;
  init_attrs (OfArray (arr1 (x self))) (Some r) SS_False.

(** The reflected operators compute [other op self.y]. *)
Definition Data_rbinop (op : npfloat -> npfloat -> npfloat) (self : Data)
  (other : operand) : result Data :=
  Data_binop (fun a b => op b a) self other.

Definition Data_mul := Data_binop fmul.
Definition Data_rmul := Data_rbinop fmul.
Definition Data_truediv := Data_binop fdiv.
Definition Data_rtruediv := Data_rbinop fdiv.
Definition Data_add := Data_binop fadd.
Definition Data_radd := Data_rbinop fadd.
Definition Data_sub := Data_binop fsub.
Definition Data_rsub := Data_rbinop fsub.

(** [__abs__]: [Data(self.x, abs(self.y))]. *)
Definition Data_abs (self : Data) : result Data :=
  init_attrs (OfArray (arr1 (x self))) (Some (arr1 (map fabs (y self))))
    SS_False.

(** [__neg__]: [Data(self.x, neg(self.y))].  The module neither defines nor
    imports a name [neg], so looking it up raises [NameError] before
    anything is computed. *)
Definition Data_neg (self : Data) : result Data := Raise NameError.

(** [__pos__]: [Data(self.x, pos(self.y))], with no [pos] in scope either. *)
Definition Data_pos (self : Data) : result Data := Raise NameError.

(** [__eq__] between two [Data]: [np.array_equal(self.values, other.values)]. *)
Definition Data_eq (self other : Data) : bool :=
  (length (values self) =? length (values other))%nat
  && array_equal (flatten_rows (values self)) (flatten_rows (values other)).

(** ** Indexing *)

(** An index: an integer, a slice [start:stop], a boolean mask, or a tuple. *)
Inductive index : Set :=
| IdxInt (i : Z)
| IdxSlice (start stop : option Z)
| IdxMask (m : list bool)
| IdxTuple (ks : list Z).

(** [Data.__index_check]: is the index call for one item only? *)
Definition index_check (self : Data) (k : index) : result bool :=
  match k with
  | IdxTuple _ => Raise IndexError
  | IdxSlice _ _ => Ok false
  | IdxInt _ => Ok true
  | IdxMask m =>
      if (length m =? 1)%nat then Ok true
      else if negb (length m =? length (x self))%nat then Raise IndexError
      else Ok false
  end.

(** Python's clipping of one slice bound against a length [n]. *)
Definition slice_bound (n : nat) (dflt : nat) (b : option Z) : nat :=
  match b with
  | None => dflt
  | Some z =>
      if (z <? 0)%Z then Z.to_nat (Z.max (z + Z.of_nat n) 0)
      else Nat.min (Z.to_nat z) n
  end.

Fixpoint mask_positions (m : list bool) (i : nat) : list nat :=
  match m with
  | [] => []
  | b :: t => if b then i :: mask_positions t (S i)
              else mask_positions t (S i)
  end.

(** The positions that numpy selects with index [k] along an axis of length
    [n], in order; [IndexError] for an integer out of bounds or a mask of
    another length. *)
Definition selection (n : nat) (k : index) : result (list nat) :=
  match k with
  | IdxInt i =>
      let i' := if (i <? 0)%Z then (i + Z.of_nat n)%Z else i in
      if ((0 <=? i') && (i' <? Z.of_nat n))%Z then Ok [Z.to_nat i']
      else Raise IndexError
  | IdxSlice start stop =>
      let lo := slice_bound n 0 start in
      let hi := slice_bound n n stop in
      Ok (seq lo (hi - lo))
  | IdxMask m =>
      if (length m =? n)%nat then Ok (mask_positions m 0)
      else Raise IndexError
  | IdxTuple _ => Raise IndexError
  end.

(** What [__getitem__] is documented to return: one row or a new [Data]. *)
Inductive item : Set :=
| ItemRow (r : npfloat * npfloat)
| ItemData (d : Data).

(** [Data.__getitem__].  For a single item the source evaluates
    [self.values(k)], a call of an [ndarray], which raises [TypeError]. *)
Definition Data_getitem (self : Data) (k : index) : result item :=
  individual <- index_check self k ;;
  if individual then Raise TypeError
  else
    pos <- selection (length (values self)) k ;;
    d <- init_attrs (OfArray (arr2 (take (values self) pos))) None SS_False ;;
    Ok (ItemData d).

(** ** Setters *)

Fixpoint update_nth {A : Type} (l : list A) (i : nat) (v : A) : list A :=
  match l, i with
  | [], _ => []
  | _ :: t, O => v :: t
  | h :: t, S i' => h :: update_nth t i' v
  end.

Fixpoint assign_at {A : Type} (l : list A) (pos : list nat) (vs : list A)
  : list A :=
  match pos, vs with
  | i :: pt, v :: vt => assign_at (update_nth l i v) pt vt
  | _, _ => l
  end.

(** [a[pos] = vs] in numpy: [vs] holds one value per selected position, or a
    single value that is broadcast; anything else is a [ValueError]. *)
Definition setitem {A : Type} (l : list A) (pos : list nat) (vs : list A)
  : result (list A) :=
  if (length vs =? length pos)%nat then Ok (assign_at l pos vs)
  else
    match vs with
    | [v] => Ok (assign_at l pos (repeat v (length pos)))
    | _ => Raise ValueError
    end.

(** The value given to [set_x] and [set_y]. *)
Inductive set_value : Set :=
| SetData (d : Data)
| SetScalar (v : npfloat)
| SetArray (l : list npfloat).

(** [set_x] and [set_y] change [self]; the model returns the new [self]. *)
Definition set_x (self : Data) (k : index) (v : set_value) : result Data :=
  match v with
  | SetData _ => Raise TypeError
  | SetScalar _ | SetArray _ =>
      _ <- index_check self k ;;
      pos <- selection (length (x self)) k ;;
      new_x <- setitem (x self) pos
                 match v with SetArray l => l | SetScalar c => [c]
                            | SetData _ => [] end ;;
      init_attrs (OfArray (arr1 new_x)) (Some (arr1 (y self))) SS_False
  end.

Definition set_y (self : Data) (k : index) (v : set_value) : result Data :=
  match v with
  | SetData _ => Raise TypeError
  | SetScalar _ | SetArray _ =>
      _ <- index_check self k ;;
      pos <- selection (length (y self)) k ;;
      new_y <- setitem (y self) pos
                 match v with SetArray l => l | SetScalar c => [c]
                            | SetData _ => [] end ;;
      init_attrs (OfArray (arr1 (x self))) (Some (arr1 new_y)) SS_False
  end.

(** The value given to [set_data]: a [Data], an [ndarray], or another
    object. *)
Inductive data_value : Set :=
| DVData (d : Data)
| DVArray (a : ndarray)
| DVOther.

Definition set_data (self : Data) (k : index) (v : data_value)
  : result Data :=
  individual <- index_check self k ;;
  sz <- (if individual then Ok 2%nat
         else pos <- selection (length (values self)) k ;;
              Ok (2 * length pos)%nat) ;;
  let assign (rows : list (npfloat * npfloat)) : result Data :=
    pos <- selection (length (values self)) k ;;
    new_data <- setitem (values self) pos rows ;;
    init_attrs (OfArray (arr2 new_data)) None SS_False in
  match v with
  | DVOther => Raise TypeError
  | DVData d =>
      if negb (sz =? 2 * length (values d))%nat then Raise ShapeError
      else assign (values d)
  | DVArray a =>
      if negb (ndim a =? 2)%nat then Raise ShapeError
      else if negb (nth 1 (shape a) 0 =? 2)%nat then Raise ShapeError
      else if negb (size a =? sz)%nat then Raise ShapeError
      else assign (rows_of (data a))
  end.

(** ** Queries *)

Definition min_x (self : Data) : result npfloat := np_min (x self).

Definition max_x (self : Data) : result npfloat := np_max (x self).

Definition spacing_x (self : Data) : result npfloat :=
  mx <- max_x self ;;
  mn <- min_x self ;;
  Ok (fdiv (fsub mx mn) (of_Z (Z.of_nat (Data_len self)))).

(** ** scipy's [interp1d] and the numpy routines around it *)

(** [fill_value]: one value for both sides, or a pair (below, above). *)
Inductive fill_value : Set :=
| FillScalar (v : npfloat)
| FillPair (below above : npfloat).

(** The keyword options of [interp1d] that the model knows; [None] stands
    for an option that was not given.  The interpolation kind is scipy's
    default, ['linear']. *)
Record kwargs : Set := mk_kwargs {
  kw_bounds_error : option bool;
  kw_fill_value : option fill_value;
  kw_assume_sorted : option bool
}.

Definition no_kwargs : kwargs := mk_kwargs None None None.

(** [np.interp] at one point, for sample points [xp] with values [fp]. *)
Definition np_interp_point (xp fp : list npfloat) (xv : npfloat) : npfloat :=
  let n := length xp in
  let lval := hd NaN fp in
  let rval := last fp NaN in
  if (n =? 1)%nat then
    if flt xv (hd NaN xp) then lval
    else if fgt xv (hd NaN xp) then rval else hd NaN fp
  else if isnan xv then xv
  else if fgt xv (last xp NaN) then rval
  else if flt xv (hd NaN xp) then lval
  else
    let j := (binsearch (fun e => fle e xv) xp n 0 n - 1)%nat in
    if (j =? n - 1)%nat then nth j fp NaN
    else if feq (nth j xp NaN) xv then nth j fp NaN
    else
      let slope := fdiv (fsub (nth (S j) fp NaN) (nth j fp NaN))
                        (fsub (nth (S j) xp NaN) (nth j xp NaN)) in
      let r := fadd (fmul slope (fsub xv (nth j xp NaN))) (nth j fp NaN) in
      if isnan r then
        let r' := fadd (fmul slope (fsub xv (nth (S j) xp NaN)))
                       (nth (S j) fp NaN) in
        if isnan r' && feq (nth j fp NaN) (nth (S j) fp NaN)
        then nth j fp NaN else r'
      else r.

(** [interp1d(xs, ys, **kw)(x_new)] for linear interpolation: the samples
    are sorted by x unless [assume_sorted]; a query below the first or above
    the last sample point raises when [bounds_error] (the default), and
    otherwise receives the fill value of its side (NaN by default). *)
Definition interp1d (xs ys : list npfloat) (kw : kwargs)
  (x_new : list npfloat) : result (list npfloat) :=
  if negb (length xs =? length ys)%nat then Raise ValueError
  else
    let ind := match kw_assume_sorted kw with
               | Some true => seq 0 (length xs)
               | _ => argsort xs
               end in
    let xp := take xs ind in
    let fp := take ys ind in
    if (length xp <? 1)%nat then Raise ValueError
    else
      let y_new := map (np_interp_point xp fp) x_new in
      let below v := flt v (hd NaN xp) in
      let above v := fgt v (last xp NaN) in
      let bounds_error := match kw_bounds_error kw with
                          | Some b => b
                          | None => true
                          end in
      let fill := match kw_fill_value kw with
                  | Some (FillPair b a) => (b, a)
                  | Some (FillScalar v) => (v, v)
                  | None => (NaN, NaN)
                  end in
      if bounds_error && (existsb below x_new || existsb above x_new)
      then Raise ValueError
      else Ok (map (fun p => if above (fst p) then snd fill
                             else if below (fst p) then fst fill
                             else snd p)
                 (combine x_new y_new)).

(** [np.arange(start, stop, step)] on floats: [ceil((stop - start) / step)]
    points [start + i * step]; a length that is not a number raises. *)
Definition np_arange (start stop step : npfloat) : result (list npfloat) :=
  match fdiv (fsub stop start) step with
  | Fin q =>
      Ok (map (fun i => fadd start (fmul (of_Z (Z.of_nat i)) step))
            (seq 0 (Z.to_nat (Qceiling q))))
  | _ => Raise ValueError
  end.

(** [np.linspace(start, stop, num)] with the end point included. *)
Definition np_linspace (start stop : npfloat) (num : Z)
  : result (list npfloat) :=
  if (num <? 0)%Z then Raise ValueError
  else
    let div := (num - 1)%Z in
    let delta := fsub stop start in
    let step := fdiv delta (of_Z div) in
    let point (i : nat) : npfloat :=
      let yi := of_Z (Z.of_nat i) in
      fadd (if (0 <? div)%Z then
              if feq step (Fin 0) then fmul (fdiv yi (of_Z div)) delta
              else fmul yi step
            else fmul yi delta)
           start in
    let pts := map point (seq 0 (Z.to_nat num)) in
    Ok (if (1 <? num)%Z then removelast pts ++ [stop] else pts).

(** ** Interpolation, cutting, stripping, sorting *)

(** What [y_from_x] returns: a float for one value, else an array. *)
Inductive y_val : Set :=
| Scalar (v : npfloat)
| Array (l : list npfloat).

(** The interpolation options fixed by [y_from_x], [interp_range] and
    [to_range]: [bounds_error=False] and
    [fill_value=(self.y.min(), self.y.max())]. *)
Definition fill_min_max (self : Data) : result kwargs :=
  lo <- np_min (y self) ;;
  hi <- np_max (y self) ;;
  Ok (mk_kwargs (Some false) (Some (FillPair lo hi)) None).

(** [Data.y_from_x]; [x_val] lists the requested x values. *)
Definition y_from_x (self : Data) (x_val : list npfloat) (bounds_error : bool)
  : result y_val :=
  _ <- (if bounds_error then
          qmax <- np_max x_val ;;
          dmax <- max_x self ;;
          if fgt qmax dmax then Raise RangeError
          else
            qmin <- np_min x_val ;;
            dmin <- min_x self ;;
            if flt qmin dmin then Raise RangeError else Ok tt
        else Ok tt) ;;
  kw <- fill_min_max self ;;
  out <- interp1d (x self) (y self) kw x_val ;;
  if negb (length out =? 1)%nat then Ok (Array out)
  else Ok (Scalar (hd NaN out)).

(** [Data.x_cut]. *)
Definition x_cut (self : Data) (x_min x_max : npfloat) : result Data :=
  if fgt x_min x_max then Raise RangeError
  else
    init_attrs
      (OfArray (arr2 (slice (values self)
                        (searchsorted (x self) x_min Left)
                        (searchsorted (x self) x_max Right))))
      None SS_False.

(** [Data.strip_nan]. *)
Definition strip_nan (self : Data) : result Data :=
  init_attrs (OfArray (arr2 (filter isfinite_any (values self)))) None
    SS_False.

(** [Data.sort]. *)
Definition sort (self : Data) : result Data :=
  init_attrs (OfArray (arr2 (take (values self) (argsort (x self))))) None
    SS_False.

(** [Data.interp_range]; the keyword options are accepted and not used. *)
Definition interp_range (self : Data) (min_x max_x step_size : npfloat)
  (kw : kwargs) : result Data :=
  lo <- np_min (x self) ;;
  if fgt lo min_x then Raise RangeError
  else
    hi <- np_max (x self) ;;
    if flt hi max_x then Raise RangeError
    else
      x_vals <- np_arange min_x max_x step_size ;;
      opts <- fill_min_max self ;;
      y_vals <- interp1d (x self) (y self) opts x_vals ;;
      init_attrs (OfArray (arr1 x_vals)) (Some (arr1 y_vals)) SS_False.

(** [Data.to_range]: as [interp_range], but the result replaces [self]; the
    model returns the new [self]. *)
Definition to_range (self : Data) (min_x max_x step_size : npfloat)
  (kw : kwargs) : result Data :=
  lo <- np_min (x self) ;;
  if fgt lo min_x then Raise RangeError
  else
    hi <- np_max (x self) ;;
    if flt hi max_x then Raise RangeError
    else
      x_vals <- np_arange min_x max_x step_size ;;
      opts <- fill_min_max self ;;
      y_vals <- interp1d (x self) (y self) opts x_vals ;;
      init_attrs (OfArray (arr1 x_vals)) (Some (arr1 y_vals)) SS_False.

(** The first three statements of [interp_full] and of [to_even]: the grid
    bounds and the grid. *)
Definition x_start (self : Data) (step_size : npfloat) : result npfloat :=
  lo <- np_min (x self) ;;
  Ok (fmul (fceil (fdiv lo step_size)) step_size).

Definition x_stop (self : Data) (step_size : npfloat) : result npfloat :=
  hi <- np_max (x self) ;;
  Ok (fmul (ffloor (fdiv hi step_size)) step_size).

Definition even_x_vals (self : Data) (step_size : npfloat)
  : result (list npfloat) :=
  start <- x_start self step_size ;;
  stop <- x_stop self step_size ;;
  n <- int_round (fdiv (fsub stop start) step_size) ;;
  np_linspace start stop (n + 1).

(** [Data.interp_full]. *)
Definition interp_full (self : Data) (step_size : npfloat) (kw : kwargs)
  : result Data :=
  x_vals <- even_x_vals self step_size ;;
  y_vals <- interp1d (x self) (y self) kw x_vals ;;
  init_attrs (OfArray (arr1 x_vals)) (Some (arr1 y_vals)) SS_False.

(** [Data.interp_number]. *)
Definition interp_number (self : Data) (point_number : Z) (kw : kwargs)
  : result Data :=
  lo <- np_min (x self) ;;
  hi <- np_max (x self) ;;
  x_vals <- np_linspace lo hi point_number ;;
  y_vals <- interp1d (x self) (y self) kw x_vals ;;
  init_attrs (OfArray (arr1 x_vals)) (Some (arr1 y_vals)) SS_False.

(** [Data.to_even]: as [interp_full], but the result replaces [self]; the
    model returns the new [self]. *)
Definition to_even (self : Data) (step_size : npfloat) (kw : kwargs)
  : result Data :=
  x_vals <- even_x_vals self step_size ;;
  y_vals <- interp1d (x self) (y self) kw x_vals ;;
  init_attrs (OfArray (arr1 x_vals)) (Some (arr1 y_vals)) SS_False.

(** [Data.__init__], whole: the attributes, then [to_even] when
    [interp_full] is given and truthy. *)
Definition Data_init (values0 : array_like) (split_y : option ndarray)
  (strip_sort : strip_sort_opt) (interp_full0 : option npfloat)
  : result Data :=
  self <- init_attrs values0 split_y strip_sort ;;
  match interp_full0 with
  | Some step => if ftruthy step then to_even self step no_kwargs
                 else Ok self
  | None => Ok self
  end.

(** [Data.apply_x] and [Data.apply_y]. *)
Definition apply_x (self : Data) (function : list npfloat -> ndarray)
  : result Data :=
  init_attrs (OfArray (function (x self))) (Some (arr1 (y self))) SS_False.

Definition apply_y (self : Data) (function : list npfloat -> ndarray)
  : result Data :=
  init_attrs (OfArray (arr1 (x self))) (Some (function (y self))) SS_False.

(** ** Free functions *)

(** The loop of [sum_data]: [total += data_set.y].  [Data] has no in-place
    addition, so this is [total = total.__add__(data_set.y)], with the y
    array of [data_set] as operand. *)
Fixpoint sum_loop (total : Data) (rest : list Data) : result Data :=
  match rest with
  | [] => Ok total
  | data_set :: rest' =>
      total' <- Data_add total (OpArray (arr1 (y data_set))) ;;
      sum_loop total' rest'
  end.

(** [sum_data]; [data_list[0]] raises [IndexError] on an empty list. *)
Definition sum_data (data_list : list Data) : result Data :=
  match data_list with
  | [] => Raise IndexError
  | first :: rest => sum_loop first rest
  end.

(** [mean]. *)
Definition mean (data_list : list Data) : result Data :=
  total <- sum_data data_list ;;
  Data_truediv total
    (OpArray (arr0 (of_Z (Z.of_nat (length data_list))))).

(** [Data.__setitem__]: item assignment is refused for every index and
    value. *)
Definition Data_setitem (self : Data) (k : index) (v : set_value)
  : result Data :=
  Raise TypeError.

(** ** Saving to a file *)

(** An element of the lists given to the saving functions: a [Data], an
    [ndarray], or any other object. *)
Inductive pyobject : Set :=
| PyData (d : Data)
| PyArray (a : ndarray)
| PyOther.

(** What the saving functions hand to [pandas.DataFrame(...).to_csv]: the
    column names and the matrix [to_save], kept by columns.  Writing the
    file is left to pandas and is not modelled.  The arguments are typed as
    lists, so the [TypeError] for an argument that is no list cannot occur;
    the built-in [ValueError] raised here is [ValueError]. *)
Record frame : Set := mk_frame {
  frame_columns : list String.string;
  frame_data : list (list npfloat)
}.

(** [np.pad(arr, (0, max_length - arr.size), mode='constant',
    constant_values=np.nan)]. *)
Definition np_pad (arr : ndarray) (max_length : nat) : list npfloat :=
  data arr ++ repeat NaN (max_length - size arr).

(** The first loop of [save_arrays]: every element must be a 1-D
    [ndarray]; the largest size is kept. *)
Fixpoint max_length_loop (array_list : list pyobject) (max_length : nat)
  : result nat :=
  match array_list with
  | [] => Ok max_length
  | PyArray arr :: rest =>
      if negb (ndim arr =? 1)%nat then Raise ValueError
      else max_length_loop rest
             (if (max_length <? size arr)%nat then size arr else max_length)
  | _ :: _ => Raise ValueError
  end.

(** [save_arrays], up to the [to_csv] call.  [np.concatenate] refuses an
    empty list of arrays. *)
Definition save_arrays (array_list : list pyobject)
  (column_names : list String.string) : result frame :=
  if negb (length array_list =? length column_names)%nat
  then Raise ValueError
  else
    max_length <- max_length_loop array_list 0 ;;
    let to_concat :=
      map (fun obj => match obj with
                      | PyArray arr => np_pad arr max_length
                      | _ => []
                      end) array_list in
    match to_concat with
    | [] => Raise ValueError
    | _ :: _ => Ok (mk_frame column_names to_concat)
    end.





(** * Vocabulary of the properties *)

(** [x] is column 0 and [y] is column 1 of [values], [both] pairs them, and
    the two columns have the length of the backing matrix. *)
Definition invariant (d : Data) : Prop :=
  x d = column0 (values d) /\
  y d = column1 (values d) /\
  both d = (x d, y d) /\
  length (x d) = length (y d) /\
  length (x d) = length (values d).

(** The container that the constructor builds from an (N, 2) matrix given
    by its rows. *)
Definition data_of_rows (rows : list (npfloat * npfloat)) : Data :=
  mk_Data rows (column0 rows) (column1 rows) (column0 rows, column1 rows).

(** The containers a caller can observe: those returned by the constructor
    and those returned (or installed in [self]) by a public operation on
    observable containers. *)
Inductive observable : Data -> Prop :=
| Obs_init v sy ss step d :
    Data_init v sy ss step = Ok d -> observable d
| Obs_binop op self other d :
    observable self -> Data_binop op self other = Ok d -> observable d
| Obs_abs self d :
    observable self -> Data_abs self = Ok d -> observable d
| Obs_neg self d :
    observable self -> Data_neg self = Ok d -> observable d
| Obs_pos self d :
    observable self -> Data_pos self = Ok d -> observable d
| Obs_getitem self k d :
    observable self -> Data_getitem self k = Ok (ItemData d) -> observable d
| Obs_set_x self k v d :
    observable self -> set_x self k v = Ok d -> observable d
| Obs_set_y self k v d :
    observable self -> set_y self k v = Ok d -> observable d
| Obs_set_data self k v d :
    observable self -> set_data self k v = Ok d -> observable d
| Obs_x_cut self a b d :
    observable self -> x_cut self a b = Ok d -> observable d
| Obs_strip_nan self d :
    observable self -> strip_nan self = Ok d -> observable d
| Obs_sort self d :
    observable self -> sort self = Ok d -> observable d
| Obs_interp_range self a b s kw d :
    observable self -> interp_range self a b s kw = Ok d -> observable d
| Obs_to_range self a b s kw d :
    observable self -> to_range self a b s kw = Ok d -> observable d
| Obs_interp_full self s kw d :
    observable self -> interp_full self s kw = Ok d -> observable d
| Obs_interp_number self n kw d :
    observable self -> interp_number self n kw = Ok d -> observable d
| Obs_to_even self s kw d :
    observable self -> to_even self s kw = Ok d -> observable d
| Obs_apply_x self f d :
    observable self -> apply_x self f = Ok d -> observable d
| Obs_apply_y self f d :
    observable self -> apply_y self f = Ok d -> observable d
| Obs_sum_data data_list d :
    (forall e, In e data_list -> observable e) ->
    sum_data data_list = Ok d -> observable d
| Obs_mean data_list d :
    (forall e, In e data_list -> observable e) ->
    mean data_list = Ok d -> observable d.

(** The x column is ascending: each value is [<=] the next one. *)
Fixpoint ascending (l : list npfloat) : bool :=
  match l with
  | a :: (b :: _) as t => fle a b && ascending t
  | _ => true
  end.

(** The column holds no NaN. *)
Definition not_nan (l : list npfloat) : Prop :=
  forall e, In e l -> isnan e = false.

(** The row has its x in [a, b]. *)
Definition in_range (a b : npfloat) (row : npfloat * npfloat) : bool :=
  fle a (fst row) && fle (fst row) b.

(** Elementwise sum of two columns. *)
Definition add_columns (ys zs : list npfloat) : list npfloat :=
  map (fun p => fadd (fst p) (snd p)) (combine ys zs).

(** The value [interp1d] gives at one query when bounds errors are disabled
    and the fill values are [(below, above)]. *)
Definition filled (xs ys : list npfloat) (below above q : npfloat)
  : npfloat :=
  if fgt q (last xs NaN) then above
  else if flt q (hd NaN xs) then below
  else np_interp_point xs ys q.


(** Two containers of two rows each, with x columns [0, 1] and [5, 6]. *)
Definition rows_01 : list (npfloat * npfloat) :=
  [(of_Z 0, of_Z 1); (of_Z 1, of_Z 2)].

Definition rows_56 : list (npfloat * npfloat) :=
  [(of_Z 5, of_Z 10); (of_Z 6, of_Z 20)].

(** The example container of the documentation: x = [0..4], y = x^2. *)
Definition squares : Data :=
  data_of_rows [(of_Z 0, of_Z 0); (of_Z 1, of_Z 1); (of_Z 2, of_Z 4);
                (of_Z 3, of_Z 9); (of_Z 4, of_Z 16)].

(** A container with a decreasing y column: x = [0, 1], y = [5, 3]. *)
Definition falling : Data :=
  data_of_rows [(of_Z 0, of_Z 5); (of_Z 1, of_Z 3)].

(** The key of position [i] in [keys]. *)
Definition key (keys : list npfloat) (i : nat) : npfloat := nth i keys NaN.

(** [ys op zs], element by element. *)
Definition zip_with (op : npfloat -> npfloat -> npfloat)
  (ys zs : list npfloat) : list npfloat :=
  map (fun p => op (fst p) (snd p)) (combine ys zs).

(** The container with x column [xs] and y column [ys]. *)
Definition data_of_columns (xs ys : list npfloat) : Data :=
  mk_Data (combine xs ys) xs ys (xs, ys).

(** The rows of [rows] that a boolean mask selects. *)
Definition mask_rows {A : Type} (rows : list A) (m : list bool) : list A :=
  map fst (filter snd (combine rows m)).

(** Each value is [<] the next one. *)
Fixpoint strictly_ascending (l : list npfloat) : bool :=
  match l with
  | a :: (b :: _) as t => flt a b && strictly_ascending t
  | _ => true
  end.

(** A 1-D array whose elements agree with its shape. *)
Definition well_formed_1d (a : ndarray) : Prop :=
  shape a = [length (data a)].

(** * Properties *)

(** ** Tools for the exception monad *)

Lemma bind_Ok {A B : Type} (c : result A) (k : A -> result B) (b : B) :
  bind c k = Ok b -> exists a, c = Ok a /\ k a = Ok b.
Proof.
  destruct c as [a | e]; simpl; intros H.
  - exists a; split; [reflexivity | exact H].
  - discriminate H.
Qed.

Lemma bind_Raise {A B : Type} (c : result A) (k : A -> result B) (e : error) :
  bind c k = Raise e ->
  c = Raise e \/ exists a, c = Ok a /\ k a = Raise e.
Proof.
  destruct c as [a | e']; simpl; intros H.
  - right; exists a; split; [reflexivity | exact H].
  - left; injection H as ->; reflexivity.
Qed.

(** Splits a hypothesis [bind c k = Ok b] into its two steps. *)
Ltac bind_inv H :=
  let a := fresh "a" in
  let Ha := fresh "Hstep" in
  apply bind_Ok in H; destruct H as [a [Ha H]].

(** ** The invariant of a container *)

Lemma init_attrs_invariant (v : array_like) (sy : option ndarray)
  (ss : strip_sort_opt) (d : Data) :
  init_attrs v sy ss = Ok d -> invariant d.
Proof.
  unfold init_attrs; intros H.
  bind_inv H.
  destruct (negb (ndim a =? 2)%nat); [discriminate H |].
  destruct (negb (nth 1 (shape a) 0%nat =? 2)%nat); [discriminate H |].
  injection H as <-.
  unfold invariant, column0, column1; simpl.
  rewrite !length_map; repeat split; reflexivity.
Qed.

(** The only exceptions of the constructor without [interp_full]. *)
Lemma init_attrs_Raise (v : array_like) (sy : option ndarray)
  (ss : strip_sort_opt) (e : error) :
  init_attrs v sy ss = Raise e -> e = ShapeError \/ e = AttributeError.
Proof.
  unfold init_attrs; intros H.
  apply bind_Raise in H; destruct H as [H | [a [_ H]]].
  - destruct sy as [sy |]; [| discriminate H].
    destruct (negb (ndim _ =? 1)%nat); [injection H as <-; now left |].
    destruct (negb (ndim sy =? 1)%nat); [injection H as <-; now left |].
    destruct (negb (size _ =? size sy)%nat); [injection H as <-; now right |].
    discriminate H.
  - destruct (negb (ndim a =? 2)%nat); [injection H as <-; now left |].
    destruct (negb (nth 1 (shape a) 0%nat =? 2)%nat);
      [injection H as <-; now left | discriminate H].
Qed.

Lemma rows_of_flatten_rows (rows : list (npfloat * npfloat)) :
  rows_of (flatten_rows rows) = rows.
Proof.
  induction rows as [| [a b] t IH]; simpl; [reflexivity | now rewrite IH].
Qed.

(** Constructing from an (N, 2) matrix given by its rows always succeeds. *)
Lemma init_attrs_arr2 (rows : list (npfloat * npfloat)) :
  init_attrs (OfArray (arr2 rows)) None SS_False =
  Ok (mk_Data rows (column0 rows) (column1 rows)
        (column0 rows, column1 rows)).
Proof.
  unfold init_attrs; simpl. now rewrite rows_of_flatten_rows.
Qed.

Lemma rows_of_flatten_combine (xs ys : list npfloat) :
  rows_of (flatten_rows (combine xs ys)) = combine xs ys.
Proof. apply rows_of_flatten_rows. Qed.

Lemma column0_combine (xs ys : list npfloat) :
  length xs = length ys -> column0 (combine xs ys) = xs.
Proof.
  unfold column0; revert ys.
  induction xs as [| a t IH]; intros [| b u] H; simpl in *;
    try discriminate; [reflexivity |].
  f_equal; apply IH; now injection H.
Qed.

Lemma column1_combine (xs ys : list npfloat) :
  length xs = length ys -> column1 (combine xs ys) = ys.
Proof.
  unfold column1; revert ys.
  induction xs as [| a t IH]; intros [| b u] H; simpl in *;
    try discriminate; [reflexivity |].
  f_equal; apply IH; now injection H.
Qed.

Lemma size_arr1 (l : list npfloat) : size (arr1 l) = length l.
Proof. unfold size; simpl. apply Nat.mul_1_r. Qed.

(** Constructing from two 1-D arrays of the same length always succeeds. *)
Lemma init_attrs_split (xs ys : list npfloat) :
  length xs = length ys ->
  init_attrs (OfArray (arr1 xs)) (Some (arr1 ys)) SS_False =
  Ok (mk_Data (combine xs ys) xs ys (xs, ys)).
Proof.
  intros H; unfold init_attrs; simpl.
  rewrite !size_arr1, H, Nat.eqb_refl; simpl.
  rewrite rows_of_flatten_combine.
  rewrite column0_combine, column1_combine by exact H.
  reflexivity.
Qed.

(** Two 1-D arrays of different lengths: the constructor fails while it
    formats the message of the exception it is about to raise. *)
Lemma init_attrs_split_mismatch (xs ys : list npfloat)
  (ss : strip_sort_opt) :
  length xs <> length ys ->
  init_attrs (OfArray (arr1 xs)) (Some (arr1 ys)) ss = Raise AttributeError.
Proof.
  intros H; unfold init_attrs; simpl.
  rewrite !size_arr1.
  apply Nat.eqb_neq in H; now rewrite H.
Qed.

(** What a successful split construction from two 1-D arrays returns. *)
Lemma init_attrs_split_Ok (xs ys : list npfloat) (d : Data) :
  init_attrs (OfArray (arr1 xs)) (Some (arr1 ys)) SS_False = Ok d ->
  length xs = length ys /\ d = mk_Data (combine xs ys) xs ys (xs, ys).
Proof.
  intros H.
  destruct (Nat.eq_dec (length xs) (length ys)) as [E | E].
  - rewrite (init_attrs_split _ _ E) in H. injection H as <-. now split.
  - rewrite (init_attrs_split_mismatch _ _ SS_False E) in H. discriminate H.
Qed.

(** ** Indexing (C4) *)

(** C4.  Single-index access never returns the pair [[x_i, y_i]]: for every
    container and every integer index, in range or not, [d[i]] raises
    [TypeError], because [__getitem__] calls the matrix instead of indexing
    it. *)
Theorem getitem_int_raises_TypeError (d : Data) (i : Z) :
  Data_getitem d (IdxInt i) = Raise TypeError.
Proof. reflexivity. Qed.

(** The two other parts of the indexing contract hold: a tuple is rejected
    with [IndexError], and a slice gives a new container over the selected
    rows. *)
Lemma getitem_tuple_raises_IndexError (d : Data) (ks : list Z) :
  Data_getitem d (IdxTuple ks) = Raise IndexError.
Proof. reflexivity. Qed.

Lemma getitem_slice (d : Data) (start stop : option Z) :
  let n := length (values d) in
  let lo := slice_bound n 0 start in
  let hi := slice_bound n n stop in
  let rows := take (values d) (seq lo (hi - lo)) in
  Data_getitem d (IdxSlice start stop) =
  Ok (ItemData (mk_Data rows (column0 rows) (column1 rows)
                  (column0 rows, column1 rows))).
Proof.
  intros n lo hi rows. unfold Data_getitem.
  cbn [index_check selection bind]. fold n lo hi rows.
  now rewrite init_attrs_arr2.
Qed.

(** ** Unary operators (C5) *)

(** C5.  Negation and the unary plus never return a container: for every
    container they raise [NameError], since the functions [neg] and [pos]
    they call do not exist in the module. *)
Theorem neg_pos_raise_NameError (d : Data) :
  Data_neg d = Raise NameError /\ Data_pos d = Raise NameError.
Proof. split; reflexivity. Qed.

(** The absolute value does what is documented: a new container with the
    same x and the absolute values of y. *)
Lemma abs_spec (d : Data) :
  invariant d ->
  exists r, Data_abs d = Ok r /\ x r = x d /\ y r = map fabs (y d).
Proof.
  intros (_ & _ & _ & Hlen & _).
  unfold Data_abs. rewrite init_attrs_split by now rewrite length_map.
  eexists; repeat split.
Qed.

(** ** Split construction (C6) *)

Lemma Data_init_Raise (v : array_like) (sy : option ndarray)
  (ss : strip_sort_opt) (step : option npfloat) (e : error) :
  init_attrs v sy ss = Raise e -> Data_init v sy ss step = Raise e.
Proof. intros H. unfold Data_init. now rewrite H. Qed.

Lemma init_attrs_unequal_size (a b : ndarray) (ss : strip_sort_opt) :
  ndim a = 1%nat -> ndim b = 1%nat -> size a <> size b ->
  init_attrs (OfArray a) (Some b) ss = Raise AttributeError.
Proof.
  intros Ha Hb Hsz. unfold init_attrs.
  rewrite Ha, Hb; simpl.
  apply Nat.eqb_neq in Hsz; now rewrite Hsz.
Qed.

(** C6.  Two 1-D inputs of unequal size do not raise the documented
    [ValueError] about sizes: building its message reads [split_y.szie], so
    the constructor raises [AttributeError]. *)
Theorem split_unequal_size_raises_AttributeError (a b : ndarray)
  (ss : strip_sort_opt) (step : option npfloat) :
  ndim a = 1%nat -> ndim b = 1%nat -> size a <> size b ->
  Data_init (OfArray a) (Some b) ss step = Raise AttributeError.
Proof.
  intros Ha Hb Hsz.
  apply Data_init_Raise. now apply init_attrs_unequal_size.
Qed.

Lemma split_unequal_size_witness :
  Data_init (OfArray (arr1 [of_Z 1; of_Z 2; of_Z 3]))
    (Some (arr1 [of_Z 1; of_Z 2])) SS_False None = Raise AttributeError.
Proof.
  apply split_unequal_size_raises_AttributeError;
    [reflexivity | reflexivity | discriminate].
Defined.

(** An input that is not 1-D is refused with the documented error. *)
Lemma split_not_1d_raises_ShapeError (a b : ndarray) (ss : strip_sort_opt)
  (step : option npfloat) :
  ndim a <> 1%nat \/ ndim b <> 1%nat ->
  Data_init (OfArray a) (Some b) ss step = Raise ShapeError.
Proof.
  intros H. unfold Data_init, init_attrs.
  destruct (Nat.eqb_spec (ndim a) 1) as [Ea | Ea]; simpl; [| reflexivity].
  destruct (Nat.eqb_spec (ndim b) 1) as [Eb | Eb]; simpl; [| reflexivity].
  destruct H as [H | H]; contradiction.
Qed.

(** ** Summing containers (C1) *)

Lemma length_add_columns (ys zs : list npfloat) :
  length zs = length ys -> length (add_columns ys zs) = length ys.
Proof.
  intros H. unfold add_columns.
  rewrite length_map, length_combine, H. apply Nat.min_id.
Qed.

(** Adding the y array of a container of the same length: the x column of
    that container plays no part. *)
Lemma add_y_array (a : Data) (zs : list npfloat) :
  invariant a -> length zs = length (y a) ->
  Data_add a (OpArray (arr1 zs)) =
  Ok (mk_Data (combine (x a) (add_columns (y a) zs)) (x a)
        (add_columns (y a) zs) (x a, add_columns (y a) zs)).
Proof.
  intros (_ & _ & _ & Hxy & _) Hlen.
  unfold Data_add, Data_binop, maths_check, ufunc2.
  rewrite size_arr1.
  destruct (Nat.eqb_spec (length zs) 1) as [E1 | E1].
  - cbn [bind]. rewrite size_arr1.
    destruct (Nat.eqb_spec (length zs) 1) as [_ | N]; [| contradiction].
    destruct zs as [| c [| ? ?]]; try discriminate E1.
    destruct (y a) as [| u [| ? ?]] eqn:Ey; try discriminate Hlen.
    cbn [data arr1 hd map ndim shape length Nat.sub repeat app bind].
    change (mk_ndarray [1%nat] [fadd u c]) with (arr1 [fadd u c]).
    rewrite init_attrs_split by (rewrite Hxy; reflexivity).
    reflexivity.
  - cbn [negb ndim arr1 shape length Nat.eqb bind].
    rewrite Hxy, <- Hlen, Nat.eqb_refl. cbn [negb bind].
    rewrite size_arr1.
    destruct (Nat.eqb_spec (length zs) 1) as [N | _]; [contradiction |].
    cbn [ndim arr1 shape length Nat.eqb data].
    rewrite Hlen, Nat.eqb_refl. cbn [bind].
    fold (add_columns (y a) zs).
    rewrite init_attrs_split
      by (rewrite length_add_columns by exact Hlen; exact Hxy).
    reflexivity.
Qed.

(** C1.  [sum_data] does not compare x columns: for two containers with the
    same number of rows it returns the first x column with the summed y
    columns, whatever the x column of the second container is. *)
Theorem sum_data_pair_ignores_x (a b : Data) :
  invariant a -> length (y b) = length (y a) ->
  sum_data [a; b] =
  Ok (mk_Data (combine (x a) (add_columns (y a) (y b))) (x a)
        (add_columns (y a) (y b)) (x a, add_columns (y a) (y b))).
Proof.
  intros Ha Hlen. unfold sum_data, sum_loop.
  rewrite (@add_y_array a (y b) Ha Hlen). reflexivity.
Qed.

Lemma data_of_rows_init (rows : list (npfloat * npfloat)) :
  Data_init (OfArray (arr2 rows)) None SS_False None =
  Ok (data_of_rows rows).
Proof. unfold Data_init. now rewrite init_attrs_arr2. Qed.

Lemma data_of_rows_invariant (rows : list (npfloat * npfloat)) :
  invariant (data_of_rows rows).
Proof.
  unfold invariant, data_of_rows, column0, column1; simpl.
  rewrite !length_map. repeat split; reflexivity.
Qed.

Lemma sum_data_pair_witness :
  array_equal (x (data_of_rows rows_01)) (x (data_of_rows rows_56)) = false /\
  sum_data [data_of_rows rows_01; data_of_rows rows_56] =
  Ok (data_of_rows [(of_Z 0, of_Z 11); (of_Z 1, of_Z 22)]).
Proof.
  split; [reflexivity |].
  exact (@sum_data_pair_ignores_x (data_of_rows rows_01)
           (data_of_rows rows_56)
           (data_of_rows_invariant rows_01) eq_refl).
Defined.

(** The operator that [sum_data] is documented to rely on does compare the
    x columns, when it is given the container rather than its y array. *)
Lemma add_Data_checks_x (a b : Data) :
  array_equal (x a) (x b) = false ->
  Data_add a (OpData b) = Raise MismatchedAxisError.
Proof.
  intros H. unfold Data_add, Data_binop, maths_check. now rewrite H.
Qed.

Lemma binop_array_Raise (op : npfloat -> npfloat -> npfloat) (a : Data)
  (arr : ndarray) (e : error) :
  Data_binop op a (OpArray arr) = Raise e -> e <> MismatchedAxisError.
Proof.
  unfold Data_binop; intros H.
  apply bind_Raise in H; destruct H as [H | [o [_ H]]].
  - unfold maths_check in H.
    destruct (size arr =? 1)%nat; [discriminate H |].
    destruct (negb _); [injection H as <-; discriminate |].
    destruct (negb _); [injection H as <-; discriminate | discriminate H].
  - apply bind_Raise in H; destruct H as [H | [r [_ H]]].
    + unfold ufunc2 in H.
      repeat match type of H with
             | (if ?c then _ else _) = _ => destruct c
             end; try discriminate H; injection H as <-; discriminate.
    + apply init_attrs_Raise in H. destruct H as [-> | ->]; discriminate.
Qed.

(** No list of containers makes [sum_data] raise [MismatchedAxisError]. *)
Lemma sum_data_never_MismatchedAxisError (data_list : list Data) :
  sum_data data_list <> Raise MismatchedAxisError.
Proof.
  destruct data_list as [| first rest]; [discriminate |].
  simpl. revert first.
  induction rest as [| d rest IH]; intros total; simpl; [discriminate |].
  intros H. apply bind_Raise in H. destruct H as [H | [t [_ H]]].
  - now apply binop_array_Raise in H.
  - now apply IH in H.
Qed.

(** ** Stripping non-finite rows (C2) *)

(** What [strip_nan] returns: the rows that hold at least one finite value. *)
Lemma strip_nan_spec (d : Data) :
  strip_nan d = Ok (data_of_rows (filter isfinite_any (values d))).
Proof. unfold strip_nan. now rewrite init_attrs_arr2. Qed.

Lemma init_strip_spec (rows : list (npfloat * npfloat)) :
  Data_init (OfArray (arr2 rows)) None SS_strip None =
  Ok (data_of_rows (filter isfinite_any rows)).
Proof.
  unfold Data_init, init_attrs; simpl. now rewrite rows_of_flatten_rows.
Qed.

(** C2.  A row with a finite x and a non-finite y is not removed, neither by
    [strip_nan] nor by construction with [strip_sort='strip']: the mask is
    computed with [any] over the row, so one finite value keeps the row. *)
Theorem strip_keeps_rows_with_one_finite_value (d : Data)
  (r : npfloat * npfloat) :
  In r (values d) -> isfinite (fst r) = true -> isfinite (snd r) = false ->
  (exists d', strip_nan d = Ok d' /\ In r (values d')) /\
  (exists d', Data_init (OfArray (arr2 (values d))) None SS_strip None = Ok d'
              /\ In r (values d')).
Proof.
  intros Hin Hx _.
  assert (Hkeep : In r (filter isfinite_any (values d))).
  { apply filter_In; split; [exact Hin |].
    unfold isfinite_any. now rewrite Hx. }
  split; eexists; (split; [first [apply strip_nan_spec | apply init_strip_spec]
                          | exact Hkeep]).
Qed.

Lemma strip_keeps_rows_witness :
  (exists d', strip_nan (data_of_rows [(of_Z 1, NaN)]) = Ok d'
              /\ In (of_Z 1, NaN) (values d')) /\
  (exists d', Data_init (OfArray (arr2 [(of_Z 1, NaN)])) None SS_strip None
              = Ok d' /\ In (of_Z 1, NaN) (values d')).
Proof.
  apply (@strip_keeps_rows_with_one_finite_value
           (data_of_rows [(of_Z 1, NaN)]) (of_Z 1, NaN));
    [left; reflexivity | reflexivity | reflexivity].
Defined.

(** ** Range resampling (C10) *)

Lemma interp1d_length (xs ys : list npfloat) (kw : kwargs)
  (q out : list npfloat) :
  interp1d xs ys kw q = Ok out -> length out = length q.
Proof.
  unfold interp1d; intros H.
  destruct (negb _); [discriminate H |].
  destruct (_ <? 1)%nat; [discriminate H |].
  destruct (_ && _); [discriminate H |].
  injection H as <-.
  rewrite length_map, length_combine, length_map. apply Nat.min_id.
Qed.




(** ** The invariant is kept by every operation (C9) *)

(** Follows a successful run down to the constructor call that ends it. *)
Ltac to_constructor H :=
  repeat first
    [ apply init_attrs_invariant in H; exact H
    | discriminate H
    | apply bind_Ok in H; destruct H as [? [? H]]
    | match type of H with
      | (if ?c then _ else _) = Ok _ => destruct c
      | match ?v with _ => _ end = Ok _ => destruct v
      end ].

Lemma sum_loop_invariant (rest : list Data) (total d : Data) :
  invariant total -> sum_loop total rest = Ok d -> invariant d.
Proof.
  revert total.
  induction rest as [| e rest IH]; intros total Ht H; simpl in H.
  - now injection H as <-.
  - bind_inv H. apply (IH a); [| exact H].
    unfold Data_add, Data_binop in Hstep. to_constructor Hstep.
Qed.

Lemma sum_data_invariant (data_list : list Data) (d : Data) :
  (forall e, In e data_list -> invariant e) ->
  sum_data data_list = Ok d -> invariant d.
Proof.
  destruct data_list as [| first rest]; intros Hall H; [discriminate H |].
  apply (sum_loop_invariant rest first); [| exact H].
  apply Hall; now left.
Qed.

Lemma observable_invariant (d : Data) : observable d -> invariant d.
Proof.
  induction 1 as
    [ v sy ss step d H
    | op self other d _ _ H | self d _ _ H | self d _ _ H | self d _ _ H
    | self k d _ _ H | self k v d _ _ H | self k v d _ _ H
    | self k v d _ _ H | self a b d _ _ H | self d _ _ H | self d _ _ H
    | self a b s kw d _ _ H | self a b s kw d _ _ H | self s kw d _ _ H
    | self n kw d _ _ H | self s kw d _ _ H | self f d _ _ H
    | self f d _ _ H | data_list d _ IH H | data_list d _ IH H ].
  - unfold Data_init in H. bind_inv H.
    apply init_attrs_invariant in Hstep.
    destruct step as [step |]; [destruct (ftruthy step) |];
      try (now injection H as <-).
    unfold to_even in H. to_constructor H.
  - unfold Data_binop in H. to_constructor H.
  - unfold Data_abs in H. to_constructor H.
  - discriminate H.
  - discriminate H.
  - unfold Data_getitem in H.
    bind_inv H. destruct a; [discriminate H |].
    bind_inv H. bind_inv H. injection H as <-.
    now apply init_attrs_invariant in Hstep1.
  - unfold set_x in H. to_constructor H.
  - unfold set_y in H. to_constructor H.
  - unfold set_data in H. to_constructor H.
  - unfold x_cut in H. to_constructor H.
  - unfold strip_nan in H. to_constructor H.
  - unfold sort in H. to_constructor H.
  - unfold interp_range in H. to_constructor H.
  - unfold to_range in H. to_constructor H.
  - unfold interp_full in H. to_constructor H.
  - unfold interp_number in H. to_constructor H.
  - unfold to_even in H. to_constructor H.
  - unfold apply_x in H. to_constructor H.
  - unfold apply_y in H. to_constructor H.
  - now apply (sum_data_invariant data_list).
  - unfold mean in H. bind_inv H.
    unfold Data_truediv, Data_binop in H. to_constructor H.
Qed.

(** C9.  Every observable container satisfies the invariant: x is column 0
    and y is column 1 of the backing matrix, and both have its number of
    rows.  A construction from inputs that cannot satisfy it raises: split
    inputs of different sizes, and a single input that is not a two-column
    matrix. *)
Theorem container_invariant :
  (forall d, observable d -> invariant d) /\
  (forall a b ss step, size a <> size b ->
     exists e, Data_init (OfArray a) (Some b) ss step = Raise e) /\
  (forall a ss step, ndim a <> 2%nat \/ nth 1 (shape a) 0%nat <> 2%nat ->
     Data_init (OfArray a) None ss step = Raise ShapeError).
Proof.
  split; [exact observable_invariant | split].
  - intros a b ss step Hsz.
    destruct (Nat.eq_dec (ndim a) 1) as [Ea | Ea];
      [destruct (Nat.eq_dec (ndim b) 1) as [Eb | Eb] |].
    + exists AttributeError.
      apply Data_init_Raise. now apply init_attrs_unequal_size.
    + exists ShapeError. apply split_not_1d_raises_ShapeError; now right.
    + exists ShapeError. apply split_not_1d_raises_ShapeError; now left.
  - intros a ss step H. unfold Data_init, init_attrs; simpl.
    destruct (Nat.eqb_spec (ndim a) 2) as [E2 | E2]; simpl; [| reflexivity].
    destruct (Nat.eqb_spec (nth 1 (shape a) 0%nat) 2) as [E3 | E3]; simpl;
      [| reflexivity].
    destruct H as [H | H]; contradiction.
Qed.

Lemma container_invariant_witness :
  invariant (data_of_rows [(of_Z 1, of_Z 1); (of_Z 2, of_Z 4);
                           (of_Z 3, of_Z 9)]).
Proof.
  apply (proj1 container_invariant).
  apply (@Obs_x_cut squares (of_Z 1) (of_Z 3)); [| reflexivity].
  apply (@Obs_init (OfArray (arr2 (values squares))) None SS_False None).
  apply data_of_rows_init.
Defined.

(** ** The order on floats *)

Lemma fle_not_nan (a b : npfloat) :
  fle a b = true -> isnan a = false /\ isnan b = false.
Proof. destruct a, b; simpl; intros H; try discriminate H; now split. Qed.

Lemma flt_not_nan (a b : npfloat) :
  flt a b = true -> isnan a = false /\ isnan b = false.
Proof. destruct a, b; simpl; intros H; try discriminate H; now split. Qed.

Lemma fle_refl (a : npfloat) : isnan a = false -> fle a a = true.
Proof.
  destruct a; simpl; intros H; try reflexivity; try discriminate H.
  apply Qle_bool_iff, Qle_refl.
Qed.

Lemma fle_trans (a b c : npfloat) :
  fle a b = true -> fle b c = true -> fle a c = true.
Proof.
  destruct a, b, c; simpl; intros H1 H2;
    try reflexivity; try discriminate H1; try discriminate H2.
  apply Qle_bool_iff in H1, H2. apply Qle_bool_iff.
  now apply Qle_trans with q0.
Qed.

(** On floats that are not NaN the order is total. *)
Lemma flt_negb_fle (a b : npfloat) :
  isnan a = false -> isnan b = false -> flt a b = negb (fle b a).
Proof.
  destruct a, b; simpl; intros Ha Hb;
    try reflexivity; try discriminate Ha; try discriminate Hb.
Qed.

Lemma fle_negb_flt (a b : npfloat) :
  isnan a = false -> isnan b = false -> fle a b = negb (flt b a).
Proof.
  intros Ha Hb. rewrite (flt_negb_fle b a Hb Ha). now rewrite negb_involutive.
Qed.

Lemma flt_fle_trans (a b c : npfloat) :
  flt a b = true -> fle b c = true -> flt a c = true.
Proof.
  intros H1 H2.
  destruct (flt_not_nan _ _ H1) as [Ha Hb].
  destruct (fle_not_nan _ _ H2) as [_ Hc].
  rewrite (flt_negb_fle a c Ha Hc). rewrite (flt_negb_fle a b Ha Hb) in H1.
  apply negb_true_iff in H1. apply negb_true_iff.
  destruct (fle c a) eqn:E; [| reflexivity].
  rewrite <- H1. symmetry. now apply fle_trans with c.
Qed.

Lemma fle_flt_trans (a b c : npfloat) :
  fle a b = true -> flt b c = true -> flt a c = true.
Proof.
  intros H1 H2.
  destruct (fle_not_nan _ _ H1) as [Ha Hb].
  destruct (flt_not_nan _ _ H2) as [_ Hc].
  rewrite (flt_negb_fle a c Ha Hc). rewrite (flt_negb_fle b c Hb Hc) in H2.
  apply negb_true_iff in H2. apply negb_true_iff.
  destruct (fle c a) eqn:E; [| reflexivity].
  rewrite <- H2. symmetry. now apply fle_trans with a.
Qed.

Lemma flt_fle (a b : npfloat) : flt a b = true -> fle a b = true.
Proof.
  destruct a, b; simpl; intros H; try reflexivity; try discriminate H.
  unfold Qlt_bool in H. apply negb_true_iff in H.
  apply Qle_bool_iff. apply Qlt_le_weak, Qnot_le_lt.
  intros Hle. apply Qle_bool_iff in Hle. congruence.
Qed.

Lemma np_lt_not_nan (e v : npfloat) :
  isnan v = false -> np_lt e v = flt e v.
Proof. intros H. unfold np_lt. rewrite H. apply orb_false_r. Qed.

(** ** Ascending columns and binary search *)

Lemma ascending_tail (h : npfloat) (t : list npfloat) :
  ascending (h :: t) = true -> ascending t = true.
Proof.
  destruct t as [| b u]; [reflexivity |].
  simpl. intros H. now apply andb_true_iff in H.
Qed.

Lemma ascending_nth (l : list npfloat) (i j : nat) :
  ascending l = true -> (i < j)%nat -> (j < length l)%nat ->
  fle (nth i l NaN) (nth j l NaN) = true.
Proof.
  revert i j.
  induction l as [| h t IH]; intros i j Hasc Hij Hj; [simpl in Hj; lia |].
  pose proof (ascending_tail h t Hasc) as Ht.
  destruct j as [| j]; [lia |].
  destruct i as [| i].
  - (* the head is below every later element *)
    clear Hij. simpl in Hj. apply Nat.succ_lt_mono in Hj. cbn [nth].
    revert h Hasc Ht IH Hj. revert t.
    induction j as [| j IHj]; intros t h Hasc Ht IH Hj.
    + destruct t as [| b u]; [simpl in Hj; lia |].
      simpl in Hasc. now apply andb_true_iff in Hasc.
    + destruct t as [| b u]; [simpl in Hj; lia |].
      assert (Hhb : fle h b = true)
        by (simpl in Hasc; now apply andb_true_iff in Hasc).
      apply fle_trans with b; [exact Hhb |].
      apply (IH 0%nat (S j) Ht); [lia | exact Hj].
  - simpl. apply IH; [exact Ht | lia | simpl in Hj; lia].
Qed.

Section BinarySearch.

Variable p : npfloat -> bool.
Variable a : list npfloat.

(** [p] holds on a prefix of [a] only. *)
Hypothesis mono : forall i j, (i <= j)%nat -> (j < length a)%nat ->
  p (nth j a NaN) = true -> p (nth i a NaN) = true.

(** The search ends on the boundary between the elements that satisfy [p]
    and those that do not, given enough fuel. *)
Lemma binsearch_boundary (fuel : nat) : forall lo hi,
  (lo <= hi)%nat -> (hi <= length a)%nat -> (hi - lo <= fuel)%nat ->
  (forall i, (i < lo)%nat -> p (nth i a NaN) = true) ->
  (forall i, (hi <= i)%nat -> (i < length a)%nat ->
             p (nth i a NaN) = false) ->
  (forall i, (i < binsearch p a fuel lo hi)%nat ->
             p (nth i a NaN) = true) /\
  (forall i, (binsearch p a fuel lo hi <= i)%nat -> (i < length a)%nat ->
             p (nth i a NaN) = false).
Proof.
  induction fuel as [| fuel IH]; intros lo hi Hle Hhi Hfuel Hlo Hup.
  - simpl. assert (lo = hi) by lia. subst hi. now split.
  - cbn [binsearch].
    destruct (Nat.ltb_spec lo hi) as [Hlt | Hge].
    + assert (Hd : (Nat.div2 (hi - lo) < hi - lo)%nat)
        by (apply Nat.lt_div2; lia).
      remember (Nat.div2 (hi - lo)) as half eqn:Ehalf. clear Ehalf.
      set (mid := (lo + half)%nat).
      assert (Hmid : (lo <= mid < hi)%nat) by (unfold mid; lia).
      destruct (p (nth mid a NaN)) eqn:Ep.
      * apply IH; try lia; [| exact Hup].
        intros i Hi. apply (mono i mid); [lia | lia | exact Ep].
      * apply IH; try lia; [exact Hlo |].
        intros i Hi Hn.
        destruct (p (nth i a NaN)) eqn:Ei; [| reflexivity].
        rewrite <- Ep. symmetry. apply (mono mid i); [lia | lia | exact Ei].
    + assert (lo = hi) by lia. subst hi. now split.
Qed.

(** [binsearch] over the whole array: an index is left of the result
    exactly when its element satisfies [p]. *)
Lemma binsearch_index (i : nat) :
  (i < length a)%nat ->
  p (nth i a NaN) = (i <? binsearch p a (length a) 0 (length a))%nat.
Proof.
  intros Hi.
  destruct (binsearch_boundary (length a) 0 (length a)) as [Hl Hr];
    try lia.
  destruct (Nat.ltb_spec i (binsearch p a (length a) 0 (length a))).
  - now apply Hl.
  - now apply Hr.
Qed.

End BinarySearch.

(** The rows of [l] whose index lies in [lo, hi) are a slice of [l]. *)
Lemma filter_slice {A : Type} (q : A -> bool) (dflt : A) (l : list A) :
  forall lo hi,
    (forall i, (i < length l)%nat ->
               q (nth i l dflt) = (lo <=? i)%nat && (i <? hi)%nat) ->
    filter q l = slice l lo hi.
Proof.
  unfold slice.
  induction l as [| h t IH]; intros lo hi Hq.
  - now rewrite skipn_nil, firstn_nil.
  - assert (Ht : forall lo' hi',
               (forall i, (i < length t)%nat ->
                  (lo <=? S i)%nat && (S i <? hi)%nat
                  = (lo' <=? i)%nat && (i <? hi')%nat) ->
               filter q t = firstn (hi' - lo') (skipn lo' t)).
    { intros lo' hi' E. apply IH. intros i Hi.
      rewrite <- E by exact Hi.
      apply (Hq (S i)). simpl; lia. }
    pose proof (Hq 0%nat ltac:(simpl; lia)) as H0. cbn [nth] in H0.
    cbn [filter]. rewrite H0.
    destruct lo as [| lo]; destruct hi as [| hi]; cbn [Nat.leb Nat.ltb andb].
    + cbn [Nat.sub firstn]. rewrite (Ht 0%nat 0%nat); [reflexivity |].
      intros i _. reflexivity.
    + cbn [Nat.leb]. cbn [Nat.sub skipn firstn]. f_equal.
      rewrite (Ht 0%nat hi); [now rewrite Nat.sub_0_r |].
      intros i _. reflexivity.
    + cbn [Nat.sub firstn]. rewrite (Ht lo 0%nat); [reflexivity |].
      intros i _. cbn. now rewrite !andb_false_r.
    + cbn [Nat.sub skipn]. apply Ht. intros i _. reflexivity.
Qed.

(** ** Cutting (C8) *)

Lemma in_range_np_lt (a b e : npfloat) :
  isnan a = false -> isnan b = false ->
  fle a e && fle e b = negb (np_lt e a) && negb (np_lt b e).
Proof.
  intros Ha Hb.
  destruct (isnan e) eqn:He.
  - destruct e; try discriminate He.
    destruct a, b; try discriminate Ha; try discriminate Hb; reflexivity.
  - rewrite (np_lt_not_nan e a Ha), (np_lt_not_nan b e He).
    rewrite (fle_negb_flt a e Ha He), (fle_negb_flt e b He Hb).
    reflexivity.
Qed.

Lemma mono_left (keys : list npfloat) (a : npfloat) :
  ascending keys = true ->
  forall i j, (i <= j)%nat -> (j < length keys)%nat ->
    go_right Left a (nth j keys NaN) = true ->
    go_right Left a (nth i keys NaN) = true.
Proof.
  intros Hasc i j Hij Hj H.
  destruct (Nat.eq_dec i j) as [-> | Hne]; [exact H |].
  pose proof (ascending_nth keys i j Hasc ltac:(lia) Hj) as Hle.
  destruct (fle_not_nan _ _ Hle) as [Hi' Hj'].
  unfold go_right, np_lt in *. rewrite Hi', Hj' in *.
  destruct (isnan a); cbn [negb andb orb] in *; [apply orb_true_r |].
  rewrite orb_false_r in *. now apply fle_flt_trans with (nth j keys NaN).
Qed.

Lemma mono_right (keys : list npfloat) (b : npfloat) :
  ascending keys = true ->
  forall i j, (i <= j)%nat -> (j < length keys)%nat ->
    go_right Right b (nth j keys NaN) = true ->
    go_right Right b (nth i keys NaN) = true.
Proof.
  intros Hasc i j Hij Hj H.
  destruct (Nat.eq_dec i j) as [-> | Hne]; [exact H |].
  pose proof (ascending_nth keys i j Hasc ltac:(lia) Hj) as Hle.
  destruct (fle_not_nan _ _ Hle) as [Hi' Hj'].
  unfold go_right, np_lt in *. rewrite Hi', Hj' in *.
  cbn [andb] in *. rewrite orb_false_r in *.
  apply negb_true_iff in H. apply negb_true_iff.
  destruct (flt b (nth i keys NaN)) eqn:E; [| reflexivity].
  rewrite <- H. symmetry. now apply flt_fle_trans with (nth i keys NaN).
Qed.

(** On an ascending x column the two binary searches of [x_cut] delimit
    exactly the rows with x in [a, b]. *)
Lemma searchsorted_slice (rows : list (npfloat * npfloat)) (a b : npfloat) :
  ascending (column0 rows) = true -> fle a b = true ->
  slice rows (searchsorted (column0 rows) a Left)
             (searchsorted (column0 rows) b Right)
  = filter (in_range a b) rows.
Proof.
  intros Hasc Hab. symmetry.
  destruct (fle_not_nan _ _ Hab) as [Ha Hb].
  apply filter_slice with (dflt := (NaN, NaN)).
  intros i Hi.
  assert (Hn : (i < length (column0 rows))%nat)
    by (unfold column0; now rewrite length_map).
  assert (Hkey : fst (nth i rows (NaN, NaN)) = nth i (column0 rows) NaN)
    by (unfold column0; symmetry; apply (map_nth fst rows (NaN, NaN))).
  unfold in_range, searchsorted.
  rewrite (in_range_np_lt a b _ Ha Hb), Hkey.
  rewrite <- (binsearch_index (go_right Right b) (column0 rows)
                (mono_right (column0 rows) b Hasc) i Hn).
  rewrite Nat.leb_antisym.
  rewrite <- (binsearch_index (go_right Left a) (column0 rows)
                (mono_left (column0 rows) a Hasc) i Hn).
  reflexivity.
Qed.

Lemma filter_all {A : Type} (q : A -> bool) (l : list A) :
  (forall e, In e l -> q e = true) -> filter q l = l.
Proof.
  induction l as [| h t IH]; intros H; [reflexivity |].
  simpl. rewrite (H h (or_introl eq_refl)). f_equal.
  apply IH. intros e He. apply H. now right.
Qed.

(** C8.  On a container with ascending x, [x_cut(a, b)] raises the range
    error when [a > b]; when [a <= b] it returns a new container with
    exactly the rows whose x lies in [a, b], in their order, hence all the
    rows when [a, b] spans the x column. *)
Theorem x_cut_spec (d : Data) (a b : npfloat) :
  invariant d -> ascending (x d) = true ->
  (fgt a b = true -> x_cut d a b = Raise RangeError) /\
  (fle a b = true ->
   x_cut d a b = Ok (data_of_rows (filter (in_range a b) (values d))) /\
   ((forall row, In row (values d) -> in_range a b row = true) ->
    x_cut d a b = Ok (data_of_rows (values d)))).
Proof.
  intros (Hx & _) Hasc. split.
  - intros Hgt. unfold x_cut. now rewrite Hgt.
  - intros Hab.
    assert (Hcut : x_cut d a b
                   = Ok (data_of_rows (filter (in_range a b) (values d)))).
    { unfold x_cut.
      destruct (fle_not_nan _ _ Hab) as [Ha Hb].
      unfold fgt. rewrite (flt_negb_fle b a Hb Ha), Hab. cbn [negb].
      rewrite init_attrs_arr2. rewrite Hx in *.
      now rewrite (searchsorted_slice (values d) a b Hasc Hab). }
    split; [exact Hcut |].
    intros Hall. rewrite Hcut. now rewrite (filter_all _ _ Hall).
Qed.

Lemma x_cut_witness :
  x_cut squares (of_Z 1) (of_Z 3)
  = Ok (data_of_rows [(of_Z 1, of_Z 1); (of_Z 2, of_Z 4); (of_Z 3, of_Z 9)])
  /\ x_cut squares (of_Z 3) (of_Z 1) = Raise RangeError.
Proof.
  destruct (x_cut_spec squares (of_Z 1) (of_Z 3)
              (data_of_rows_invariant _) eq_refl) as [_ H13].
  destruct (x_cut_spec squares (of_Z 3) (of_Z 1)
              (data_of_rows_invariant _) eq_refl) as [H31 _].
  split; [exact (proj1 (H13 eq_refl)) | exact (H31 eq_refl)].
Defined.

(** ** Minimum and maximum of a column *)

Lemma fmax2_spec (v b : npfloat) :
  isnan v = false -> isnan b = false ->
  (fmax2 v b = v \/ fmax2 v b = b) /\
  fle v (fmax2 v b) = true /\ fle b (fmax2 v b) = true.
Proof.
  intros Hv Hb. unfold fmax2. rewrite Hv, Hb.
  destruct (flt v b) eqn:E.
  - repeat split; [now right | now apply flt_fle | now apply fle_refl].
  - repeat split; [now left | now apply fle_refl |].
    rewrite (fle_negb_flt b v Hb Hv), E. reflexivity.
Qed.

Lemma fmin2_spec (v b : npfloat) :
  isnan v = false -> isnan b = false ->
  (fmin2 v b = v \/ fmin2 v b = b) /\
  fle (fmin2 v b) v = true /\ fle (fmin2 v b) b = true.
Proof.
  intros Hv Hb. unfold fmin2. rewrite Hv, Hb.
  destruct (flt b v) eqn:E.
  - repeat split; [now right | now apply flt_fle | now apply fle_refl].
  - repeat split; [now left | now apply fle_refl |].
    rewrite (fle_negb_flt v b Hv Hb), E. reflexivity.
Qed.

(** The maximum of a column without NaN is one of its elements and is above
    all of them. *)
Lemma fold_max_spec (t : list npfloat) : forall v,
  not_nan (v :: t) ->
  In (fold_left fmax2 t v) (v :: t) /\
  forall e, In e (v :: t) -> fle e (fold_left fmax2 t v) = true.
Proof.
  induction t as [| b t IH]; intros v Hnn.
  - simpl. split; [now left |].
    intros e [<- | []]. apply fle_refl, Hnn. now left.
  - assert (Hv : isnan v = false) by (apply Hnn; now left).
    assert (Hb : isnan b = false) by (apply Hnn; right; now left).
    destruct (fmax2_spec v b Hv Hb) as (Hw & Hvw & Hbw).
    cbn [fold_left].
    destruct (IH (fmax2 v b)) as [Hin Hall].
    { intros e [<- | He]; [destruct Hw as [-> | ->]; assumption |].
      apply Hnn. right; now right. }
    split.
    + destruct Hin as [Hin | Hin]; [| right; now right].
      rewrite <- Hin. destruct Hw as [-> | ->]; [now left | right; now left].
    + intros e [<- | [<- | He]].
      * apply fle_trans with (fmax2 v b); [exact Hvw |].
        apply Hall. now left.
      * apply fle_trans with (fmax2 v b); [exact Hbw |].
        apply Hall. now left.
      * apply Hall. now right.
Qed.

Lemma fold_min_spec (t : list npfloat) : forall v,
  not_nan (v :: t) ->
  In (fold_left fmin2 t v) (v :: t) /\
  forall e, In e (v :: t) -> fle (fold_left fmin2 t v) e = true.
Proof.
  induction t as [| b t IH]; intros v Hnn.
  - simpl. split; [now left |].
    intros e [<- | []]. apply fle_refl, Hnn. now left.
  - assert (Hv : isnan v = false) by (apply Hnn; now left).
    assert (Hb : isnan b = false) by (apply Hnn; right; now left).
    destruct (fmin2_spec v b Hv Hb) as (Hw & Hvw & Hbw).
    cbn [fold_left].
    destruct (IH (fmin2 v b)) as [Hin Hall].
    { intros e [<- | He]; [destruct Hw as [-> | ->]; assumption |].
      apply Hnn. right; now right. }
    split.
    + destruct Hin as [Hin | Hin]; [| right; now right].
      rewrite <- Hin. destruct Hw as [-> | ->]; [now left | right; now left].
    + intros e [<- | [<- | He]].
      * apply fle_trans with (fmin2 v b); [| exact Hvw].
        apply Hall. now left.
      * apply fle_trans with (fmin2 v b); [| exact Hbw].
        apply Hall. now left.
      * apply Hall. now right.
Qed.

Lemma np_max_spec (l : list npfloat) (m : npfloat) :
  not_nan l -> np_max l = Ok m ->
  In m l /\ forall e, In e l -> fle e m = true.
Proof.
  destruct l as [| v t]; intros Hnn H; [discriminate H |].
  injection H as <-. now apply fold_max_spec.
Qed.

Lemma np_min_spec (l : list npfloat) (m : npfloat) :
  not_nan l -> np_min l = Ok m ->
  In m l /\ forall e, In e l -> fle m e = true.
Proof.
  destruct l as [| v t]; intros Hnn H; [discriminate H |].
  injection H as <-. now apply fold_min_spec.
Qed.

(** Two floats that are [<=] each other compare alike with any third. *)
Lemma flt_equiv_l (a b c : npfloat) :
  fle a b = true -> fle b a = true -> flt a c = flt b c.
Proof.
  intros Hab Hba.
  destruct (flt a c) eqn:Ea, (flt b c) eqn:Eb; try reflexivity.
  - rewrite <- Eb. symmetry. now apply fle_flt_trans with a.
  - rewrite <- Ea. now apply fle_flt_trans with b.
Qed.

Lemma flt_equiv_r (a b c : npfloat) :
  fle a b = true -> fle b a = true -> flt c a = flt c b.
Proof.
  intros Hab Hba.
  destruct (flt c a) eqn:Ea, (flt c b) eqn:Eb; try reflexivity.
  - rewrite <- Eb. symmetry. now apply flt_fle_trans with a.
  - rewrite <- Ea. now apply flt_fle_trans with b.
Qed.

(** An ascending column of two or more values holds no NaN. *)
Lemma ascending_not_nan (t : list npfloat) : forall a b,
  ascending (a :: b :: t) = true -> not_nan (a :: b :: t).
Proof.
  induction t as [| c t IH]; intros a b Hasc.
  - simpl in Hasc. rewrite andb_true_r in Hasc.
    destruct (fle_not_nan _ _ Hasc) as [Ha Hb].
    intros e [<- | [<- | []]]; assumption.
  - assert (Hab : fle a b = true)
      by (cbn [ascending] in Hasc; now apply andb_true_iff in Hasc).
    pose proof (IH b c (ascending_tail a _ Hasc)) as Hrest.
    intros e [<- | He]; [now destruct (fle_not_nan _ _ Hab) |].
    now apply Hrest.
Qed.

Lemma ascending_hd_le (t : list npfloat) : forall h,
  ascending (h :: t) = true -> not_nan (h :: t) ->
  forall e, In e (h :: t) -> fle h e = true.
Proof.
  induction t as [| b t IH]; intros h Hasc Hnn e He.
  - destruct He as [<- | []]. apply fle_refl, Hnn. now left.
  - destruct He as [<- | He]; [apply fle_refl, Hnn; now left |].
    assert (Hhb : fle h b = true)
      by (cbn [ascending] in Hasc; now apply andb_true_iff in Hasc).
    apply fle_trans with b; [exact Hhb |].
    apply IH; [exact (ascending_tail h _ Hasc) | | exact He].
    intros e' He'. apply Hnn. now right.
Qed.

Lemma ascending_le_last (l : list npfloat) :
  ascending l = true -> not_nan l ->
  forall e, In e l -> fle e (last l NaN) = true.
Proof.
  induction l as [| h t IH]; intros Hasc Hnn e He; [destruct He |].
  destruct t as [| b t].
  - destruct He as [<- | []]. apply fle_refl, Hnn. now left.
  - assert (Hrest : forall e', In e' (b :: t) ->
                               fle e' (last (b :: t) NaN) = true).
    { apply IH; [exact (ascending_tail h _ Hasc) |].
      intros e' He'. apply Hnn. now right. }
    change (last (h :: b :: t) NaN) with (last (b :: t) NaN).
    destruct He as [<- | He]; [| now apply Hrest].
    apply fle_trans with b; [| apply Hrest; now left].
    cbn [ascending] in Hasc. now apply andb_true_iff in Hasc.
Qed.

(** On an ascending column, comparing with [np.max] is comparing with the
    last value, and comparing with [np.min] is comparing with the first. *)
Lemma ascending_max_last (l : list npfloat) (m : npfloat) :
  ascending l = true -> np_max l = Ok m ->
  forall q, fgt q m = fgt q (last l NaN).
Proof.
  intros Hasc Hm q.
  destruct l as [| a [| b t]]; [discriminate Hm | |].
  - injection Hm as <-. reflexivity.
  - pose proof (ascending_not_nan t a b Hasc) as Hnn.
    destruct (np_max_spec _ m Hnn Hm) as [Hin Hall].
    unfold fgt. apply flt_equiv_l.
    + now apply ascending_le_last.
    + apply Hall. generalize (b :: t). intros l'.
      induction l' as [| c l' IH] in a |- *; [now left |].
      right. apply IH.
Qed.

Lemma ascending_min_hd (l : list npfloat) (m : npfloat) :
  ascending l = true -> np_min l = Ok m ->
  forall q, flt q m = flt q (hd NaN l).
Proof.
  intros Hasc Hm q.
  destruct l as [| a [| b t]]; [discriminate Hm | |].
  - injection Hm as <-. reflexivity.
  - pose proof (ascending_not_nan t a b Hasc) as Hnn.
    destruct (np_min_spec _ m Hnn Hm) as [Hin Hall].
    apply flt_equiv_r.
    + apply Hall. now left.
    + cbn [hd]. now apply (ascending_hd_le (b :: t) a).
Qed.

(** ** Interpolating over an ascending column *)

Lemma take_seq_app {A : Type} (l : list A) : forall pre,
  take (pre ++ l) (seq (length pre) (length l)) = l.
Proof.
  induction l as [| h t IH]; intros pre; [reflexivity |].
  cbn [length seq take].
  rewrite nth_error_app2, Nat.sub_diag by lia. cbn [nth_error].
  f_equal.
  change (pre ++ h :: t) with (pre ++ [h] ++ t). rewrite app_assoc.
  rewrite <- (last_length pre h). apply IH.
Qed.

Lemma take_seq {A : Type} (l : list A) : take l (seq 0 (length l)) = l.
Proof. exact (take_seq_app l []). Qed.

(** Sorting an ascending column moves nothing. *)
Lemma argsort_ascending_from (keys : list npfloat) :
  ascending keys = true ->
  forall len start, (start + len <= length keys)%nat ->
    fold_right (insert_idx keys) [] (seq start len) = seq start len.
Proof.
  intros Hasc. induction len as [| len IH]; intros start Hle; [reflexivity |].
  cbn [seq fold_right]. rewrite IH by lia.
  destruct len as [| len]; [reflexivity |].
  cbn [seq insert_idx].
  pose proof (ascending_nth keys start (S start) Hasc ltac:(lia) ltac:(lia))
    as Hfle.
  destruct (fle_not_nan _ _ Hfle) as [H1 H2].
  rewrite (np_lt_not_nan _ _ H1), (flt_negb_fle _ _ H2 H1), Hfle.
  reflexivity.
Qed.

Lemma argsort_ascending (keys : list npfloat) :
  ascending keys = true -> argsort keys = seq 0 (length keys).
Proof.
  intros Hasc. unfold argsort. now apply argsort_ascending_from.
Qed.

Lemma map_combine_map {A B C : Type} (f : A -> B) (g : A * B -> C)
  (l : list A) :
  map g (combine l (map f l)) = map (fun q => g (q, f q)) l.
Proof.
  induction l as [| h t IH]; [reflexivity |]. simpl. now rewrite IH.
Qed.

Lemma interp1d_ascending_filled (xs ys : list npfloat)
  (below above : npfloat) (qs : list npfloat) :
  ascending xs = true -> length xs = length ys -> xs <> [] ->
  interp1d xs ys (mk_kwargs (Some false) (Some (FillPair below above)) None)
    qs
  = Ok (map (filled xs ys below above) qs).
Proof.
  intros Hasc Hlen Hne. unfold interp1d.
  assert (Hx : take xs (argsort xs) = xs)
    by (rewrite argsort_ascending by exact Hasc; apply take_seq).
  assert (Hy : take ys (argsort xs) = ys)
    by (rewrite argsort_ascending by exact Hasc; rewrite Hlen;
        apply take_seq).
  destruct (Nat.eqb_spec (length xs) (length ys)) as [_ | N];
    [| contradiction].
  cbn [negb kw_assume_sorted]. rewrite Hx, Hy.
  destruct xs as [| a t]; [contradiction |].
  cbn [length Nat.ltb Nat.leb kw_bounds_error kw_fill_value andb].
  rewrite map_combine_map. reflexivity.
Qed.

(** ** Point lookup (C3) *)

Lemma flt_asym (a b : npfloat) : flt a b = true -> flt b a = false.
Proof.
  intros H. destruct (flt_not_nan _ _ H) as [Ha Hb].
  rewrite (flt_negb_fle b a Hb Ha), (flt_fle a b H). reflexivity.
Qed.

(** Below the first value of an ascending column is not above its last. *)
Lemma below_not_above (l : list npfloat) (q : npfloat) :
  ascending l = true -> flt q (hd NaN l) = true ->
  fgt q (last l NaN) = false.
Proof.
  intros Hasc Hq. unfold fgt.
  destruct l as [| a [| b t]];
    [destruct q; discriminate Hq | now apply flt_asym |].
  pose proof (ascending_not_nan t a b Hasc) as Hnn.
  assert (Hle : fle a (last (a :: b :: t) NaN) = true)
    by (apply ascending_le_last; [exact Hasc | exact Hnn | now left]).
  cbn [hd] in Hq.
  destruct (flt (last (a :: b :: t) NaN) q) eqn:E; [| reflexivity].
  rewrite <- (flt_asym q a Hq). symmetry.
  now apply fle_flt_trans with (last (a :: b :: t) NaN).
Qed.

(** The default bounds check of [y_from_x]. *)
Lemma y_from_x_out_of_range (d : Data) (qs : list npfloat) (lo hi : npfloat) :
  min_x d = Ok lo -> max_x d = Ok hi -> not_nan qs ->
  (exists q, In q qs /\ (flt q lo = true \/ fgt q hi = true)) ->
  y_from_x d qs true = Raise RangeError.
Proof.
  intros Hlo Hhi Hnn (q & Hin & Hout). unfold y_from_x.
  destruct (np_max qs) as [qmax | e] eqn:Emax;
    [| destruct qs; [destruct Hin | discriminate Emax]].
  destruct (np_min qs) as [qmin | e] eqn:Emin;
    [| destruct qs; [destruct Hin | discriminate Emin]].
  destruct (np_max_spec qs qmax Hnn Emax) as [_ Hmax].
  destruct (np_min_spec qs qmin Hnn Emin) as [_ Hmin].
  cbn [bind]. rewrite Hhi, Hlo. cbn [bind].
  destruct (fgt qmax hi) eqn:Egt; [reflexivity |].
  cbn [bind].
  destruct (flt qmin lo) eqn:Elt; [reflexivity |].
  exfalso. destruct Hout as [Hq | Hq].
  - rewrite (fle_flt_trans qmin q lo (Hmin q Hin) Hq) in Elt. discriminate.
  - unfold fgt in *.
    rewrite (flt_fle_trans hi q qmax Hq (Hmax q Hin)) in Egt. discriminate.
Qed.

(** What [y_from_x] returns when the bounds check is disabled. *)
Lemma y_from_x_unchecked (d : Data) (qs : list npfloat)
  (ymin ymax : npfloat) :
  invariant d -> ascending (x d) = true -> x d <> [] ->
  np_min (y d) = Ok ymin -> np_max (y d) = Ok ymax ->
  y_from_x d qs false =
  let out := map (filled (x d) (y d) ymin ymax) qs in
  Ok (if (length qs =? 1)%nat then Scalar (hd NaN out) else Array out).
Proof.
  intros (_ & _ & _ & Hlen & _) Hasc Hne Hymin Hymax.
  unfold y_from_x, fill_min_max. rewrite Hymin, Hymax. cbn [bind].
  rewrite (interp1d_ascending_filled (x d) (y d) ymin ymax qs Hasc Hlen Hne).
  cbn [bind]. rewrite length_map.
  now destruct (length qs =? 1)%nat.
Qed.

(** C3, as the code has it.  On a non-empty container with ascending x,
    [y_from_x] by default raises the range error when a query (none of them
    NaN) lies outside [min_x, max_x].  With the bounds check disabled it
    returns one value per query, a scalar for a single query and an array
    otherwise; a query below [min_x] receives the minimum of the y column
    and a query above [max_x] receives the maximum of the y column. *)
Theorem y_from_x_spec (d : Data) (qs : list npfloat)
  (lo hi ymin ymax : npfloat) :
  invariant d -> ascending (x d) = true ->
  min_x d = Ok lo -> max_x d = Ok hi ->
  np_min (y d) = Ok ymin -> np_max (y d) = Ok ymax ->
  (not_nan qs ->
   (exists q, In q qs /\ (flt q lo = true \/ fgt q hi = true)) ->
   y_from_x d qs true = Raise RangeError) /\
  (exists out,
     y_from_x d qs false
     = Ok (if (length qs =? 1)%nat then Scalar (hd NaN out) else Array out)
     /\ length out = length qs
     /\ forall i q, nth_error qs i = Some q ->
          (flt q lo = true -> nth_error out i = Some ymin) /\
          (fgt q hi = true -> nth_error out i = Some ymax)).
Proof.
  intros Hinv Hasc Hlo Hhi Hymin Hymax. split.
  - now apply y_from_x_out_of_range.
  - assert (Hne : x d <> [])
      by (intros E; unfold min_x in Hlo; rewrite E in Hlo; discriminate Hlo).
    exists (map (filled (x d) (y d) ymin ymax) qs).
    split; [now apply y_from_x_unchecked |].
    split; [apply length_map |].
    intros i q Hq.
    rewrite (map_nth_error _ _ _ Hq). unfold filled.
    unfold min_x in Hlo. unfold max_x in Hhi.
    rewrite <- (ascending_max_last (x d) hi Hasc Hhi q).
    rewrite <- (ascending_min_hd (x d) lo Hasc Hlo q).
    split.
    + intros Hbelow.
      assert (Hna : fgt q hi = false).
      { rewrite (ascending_max_last (x d) hi Hasc Hhi q).
        apply below_not_above; [exact Hasc |].
        now rewrite <- (ascending_min_hd (x d) lo Hasc Hlo q). }
      now rewrite Hna, Hbelow.
    + intros Habove. now rewrite Habove.
Qed.

Lemma y_from_x_witness :
  y_from_x falling [of_Z 2; of_Z 0] true = Raise RangeError /\
  exists out,
    y_from_x falling [of_Z (-1)] false = Ok (Scalar (hd NaN out)) /\
    length out = 1%nat /\
    nth_error out 0 = Some (of_Z 3).
Proof.
  destruct (y_from_x_spec falling [of_Z 2; of_Z 0] (of_Z 0) (of_Z 1)
              (of_Z 3) (of_Z 5) (data_of_rows_invariant _)
              eq_refl eq_refl eq_refl eq_refl eq_refl) as [Hraise _].
  destruct (y_from_x_spec falling [of_Z (-1)] (of_Z 0) (of_Z 1)
              (of_Z 3) (of_Z 5) (data_of_rows_invariant _)
              eq_refl eq_refl eq_refl eq_refl eq_refl)
    as [_ (out & Hout & Hlen & Hfill)].
  split.
  - apply Hraise.
    + intros e [<- | [<- | []]]; reflexivity.
    + exists (of_Z 2). split; [now left | right; reflexivity].
  - exists out. repeat split; [exact Hout | exact Hlen |].
    exact (proj1 (Hfill 0%nat (of_Z (-1)) eq_refl) eq_refl).
Defined.

(** C3 as first stated does not hold: with the bounds check disabled, a
    query below the smallest x does not return the y sample at the smallest
    x.  On [falling] the query -1 returns 3, the minimum of y, while the
    sample at x = 0 is 5. *)
Lemma y_from_x_not_edge_sample :
  ~ (forall (d : Data) (q lo : npfloat),
       invariant d -> ascending (x d) = true -> min_x d = Ok lo ->
       flt q lo = true ->
       y_from_x d [q] false = Ok (Scalar (hd NaN (y d)))).
Proof.
  intros H.
  specialize (H falling (of_Z (-1)) (of_Z 0) (data_of_rows_invariant _)
                eq_refl eq_refl eq_refl).
  vm_compute in H. discriminate H.
Qed.

(** ** Even-grid resampling: the grid *)











(** ** Even-grid resampling: sorting and interpolation (C7) *)

Section Argsort.

Variable keys : list npfloat.
Hypothesis keys_not_nan : not_nan keys.

Lemma key_not_nan (i : nat) :
  (i < length keys)%nat -> isnan (key keys i) = false.
Proof. intros Hi. apply keys_not_nan. now apply nth_In. Qed.

Lemma insert_idx_In (i j : nat) (l : list nat) :
  In j (insert_idx keys i l) <-> j = i \/ In j l.
Proof.
  induction l as [| h t IH]; simpl; [intuition |].
  destruct (np_lt (nth h keys NaN) (nth i keys NaN)); simpl.
  - rewrite IH. intuition.
  - intuition.
Qed.

Lemma insert_idx_ascending (i : nat) (l : list nat) :
  (i < length keys)%nat -> (forall j, In j l -> (j < length keys)%nat) ->
  ascending (map (key keys) l) = true ->
  ascending (map (key keys) (insert_idx keys i l)) = true.
Proof.
  intros Hi. induction l as [| h t IH]; intros Hval Hasc; [reflexivity |].
  assert (Hh : (h < length keys)%nat) by (apply Hval; now left).
  assert (Ht : forall j, In j t -> (j < length keys)%nat)
    by (intros j Hj; apply Hval; now right).
  pose proof (key_not_nan i Hi) as Ni.
  pose proof (key_not_nan h Hh) as Nh.
  cbn [insert_idx]. fold (key keys h) (key keys i).
  rewrite (np_lt_not_nan (key keys h) (key keys i) Ni).
  destruct (flt (key keys h) (key keys i)) eqn:E.
  - specialize (IH Ht (ascending_tail _ _ Hasc)).
    destruct t as [| h2 t2].
    + cbn [insert_idx map ascending]. now rewrite (flt_fle _ _ E).
    + cbn [insert_idx] in IH |- *. fold (key keys h2) (key keys i) in IH |- *.
      destruct (np_lt (key keys h2) (key keys i)).
      * cbn [map ascending] in Hasc, IH |- *.
        apply andb_true_iff in Hasc. destruct Hasc as [-> _].
        exact IH.
      * cbn [map ascending] in IH |- *.
        now rewrite (flt_fle _ _ E).
  - cbn [map ascending] in Hasc |- *.
    rewrite (fle_negb_flt (key keys i) (key keys h) Ni Nh), E. exact Hasc.
Qed.

Lemma argsort_spec :
  ascending (map (key keys) (argsort keys)) = true /\
  forall j, In j (argsort keys) <-> (j < length keys)%nat.
Proof.
  unfold argsort.
  assert (H : forall l, (forall j, In j l -> (j < length keys)%nat) ->
            ascending (map (key keys) (fold_right (insert_idx keys) [] l))
            = true
            /\ forall j, In j (fold_right (insert_idx keys) [] l)
                         <-> In j l).
  { induction l as [| i l IH]; intros Hval; [split; [reflexivity | tauto] |].
    destruct IH as [Hasc Hin]; [intros j Hj; apply Hval; now right |].
    cbn [fold_right]. split.
    - apply insert_idx_ascending; [apply Hval; now left | | exact Hasc].
      intros j Hj. apply Hval. right. now apply Hin.
    - intros j. rewrite insert_idx_In, Hin. simpl. intuition. }
  destruct (H (seq 0 (length keys))) as [Hasc Hin].
  { intros j Hj. apply in_seq in Hj. lia. }
  split; [exact Hasc |].
  intros j. rewrite Hin, in_seq. lia.
Qed.

Lemma take_valid {A : Type} (l : list A) (dflt : A) (idx : list nat) :
  (forall j, In j idx -> (j < length l)%nat) ->
  take l idx = map (fun i => nth i l dflt) idx.
Proof.
  induction idx as [| i t IH]; intros Hval; [reflexivity |].
  cbn [take map].
  rewrite (nth_error_nth' l dflt (Hval i (or_introl eq_refl))).
  f_equal. apply IH. intros j Hj. apply Hval. now right.
Qed.

(** The sorted column is ascending and has the elements of [keys]. *)
Lemma sorted_keys_spec :
  ascending (take keys (argsort keys)) = true /\
  forall e, In e (take keys (argsort keys)) <-> In e keys.
Proof.
  destruct argsort_spec as [Hasc Hin].
  rewrite (take_valid keys NaN (argsort keys))
    by (intros j Hj; now apply Hin).
  split; [exact Hasc |].
  intros e. rewrite in_map_iff. split.
  - intros (i & <- & Hi). apply nth_In. now apply Hin.
  - intros He. destruct (In_nth keys e NaN He) as (i & Hi & <-).
    exists i. split; [reflexivity | now apply Hin].
Qed.

End Argsort.









(** * Further properties of the module *)

(** ** Construction *)

Lemma combine_columns (rows : list (npfloat * npfloat)) :
  combine (column0 rows) (column1 rows) = rows.
Proof.
  unfold column0, column1.
  induction rows as [| [a b] t IH]; simpl; [reflexivity | now rewrite IH].
Qed.

Lemma invariant_data_of_rows (d : Data) :
  invariant d -> d = data_of_rows (values d).
Proof.
  destruct d as [v xs ys b]. unfold invariant, data_of_rows; simpl.
  intros (-> & -> & -> & _). reflexivity.
Qed.

Lemma invariant_data_of_columns (d : Data) :
  invariant d -> d = data_of_columns (x d) (y d).
Proof.
  intros H. rewrite (invariant_data_of_rows d H) at 1.
  destruct H as (Hx & Hy & _).
  unfold data_of_columns, data_of_rows.
  rewrite Hx, Hy, combine_columns. reflexivity.
Qed.

(** X1.  Two columns of the same length given separately are read back
    unchanged from the container, whose matrix pairs them row by row; and
    constructing again from that matrix gives the same container. *)
Theorem construct_read_back (xs ys : list npfloat) :
  length xs = length ys ->
  exists d,
    Data_init (OfArray (arr1 xs)) (Some (arr1 ys)) SS_False None = Ok d /\
    x d = xs /\ y d = ys /\ values d = combine xs ys /\
    Data_init (OfArray (arr2 (values d))) None SS_False None = Ok d.
Proof.
  intros Hlen. exists (data_of_columns xs ys).
  unfold Data_init. rewrite (init_attrs_split xs ys Hlen).
  repeat split. cbn [values data_of_columns bind].
  rewrite init_attrs_arr2.
  rewrite (column0_combine xs ys Hlen), (column1_combine xs ys Hlen).
  reflexivity.
Qed.

Lemma construct_read_back_witness :
  exists d,
    Data_init (OfArray (arr1 [of_Z 1; of_Z 2]))
      (Some (arr1 [NaN; of_Z 4])) SS_False None = Ok d /\
    x d = [of_Z 1; of_Z 2] /\ y d = [NaN; of_Z 4] /\
    values d = combine [of_Z 1; of_Z 2] [NaN; of_Z 4] /\
    Data_init (OfArray (arr2 (values d))) None SS_False None = Ok d.
Proof. apply construct_read_back. reflexivity. Defined.

(** X2.  Copy construction is the identity: a container that satisfies the
    invariant is returned unchanged by [Data(d)] and by [Data(d.x, d.y)]. *)
Theorem copy_construct_identity (d : Data) :
  invariant d ->
  Data_init (OfData d) None SS_False None = Ok d /\
  Data_init (OfArray (arr1 (x d))) (Some (arr1 (y d))) SS_False None = Ok d.
Proof.
  intros H. split.
  - unfold Data_init.
    change (init_attrs (OfData d) None SS_False)
      with (init_attrs (OfArray (arr2 (values d))) None SS_False).
    rewrite init_attrs_arr2. cbn [bind].
    f_equal. symmetry. exact (invariant_data_of_rows d H).
  - unfold Data_init. destruct H as (Hx & Hy & Hb & Hlen & Hn).
    rewrite (init_attrs_split (x d) (y d) Hlen). cbn [bind].
    f_equal. symmetry. apply invariant_data_of_columns.
    repeat split; assumption.
Qed.

Lemma copy_construct_identity_witness :
  Data_init (OfData squares) None SS_False None = Ok squares /\
  Data_init (OfArray (arr1 (x squares))) (Some (arr1 (y squares)))
    SS_False None = Ok squares.
Proof. apply copy_construct_identity. apply data_of_rows_invariant. Defined.

(** X3.  The [strip_sort] options of the constructor are the methods
    applied after a plain construction: ['strip'] is [strip_nan], ['sort']
    is [sort], and [True] is [strip_nan] followed by [sort]. *)
Theorem strip_sort_composes (rows : list (npfloat * npfloat)) :
  Data_init (OfArray (arr2 rows)) None SS_strip None
  = (d <- Data_init (OfArray (arr2 rows)) None SS_False None ;; strip_nan d)
  /\
  Data_init (OfArray (arr2 rows)) None SS_sort None
  = (d <- Data_init (OfArray (arr2 rows)) None SS_False None ;; sort d)
  /\
  Data_init (OfArray (arr2 rows)) None SS_True None
  = (d <- Data_init (OfArray (arr2 rows)) None SS_False None ;;
     s <- strip_nan d ;; sort s).
Proof.
  rewrite data_of_rows_init. cbn [bind].
  rewrite strip_nan_spec. cbn [bind].
  unfold sort. rewrite !init_attrs_arr2.
  unfold Data_init, init_attrs.
  cbn [bind ndim size shape arr2 length Nat.eqb negb nth data values x
       data_of_rows].
  rewrite !rows_of_flatten_rows. repeat split.
Qed.

(** ** Stripping *)

Lemma filter_idempotent {A : Type} (q : A -> bool) (l : list A) :
  filter q (filter q l) = filter q l.
Proof.
  induction l as [| h t IH]; [reflexivity |].
  simpl. destruct (q h) eqn:E; simpl; [rewrite E; now f_equal | exact IH].
Qed.



(** ** Arithmetic *)

Lemma length_zip_with (op : npfloat -> npfloat -> npfloat)
  (ys zs : list npfloat) :
  length zs = length ys -> length (zip_with op ys zs) = length ys.
Proof.
  intros H. unfold zip_with.
  rewrite length_map, length_combine, H. apply Nat.min_id.
Qed.

(** An operator applied to a 1-D array of the length of the container. *)
Lemma binop_y_array (op : npfloat -> npfloat -> npfloat) (a : Data)
  (zs : list npfloat) :
  invariant a -> length zs = length (y a) ->
  Data_binop op a (OpArray (arr1 zs))
  = Ok (data_of_columns (x a) (zip_with op (y a) zs)).
Proof.
  intros (_ & _ & _ & Hxy & _) Hlen.
  unfold Data_binop, maths_check, ufunc2.
  rewrite size_arr1.
  destruct (Nat.eqb_spec (length zs) 1) as [E1 | E1].
  - cbn [bind]. rewrite size_arr1.
    destruct (Nat.eqb_spec (length zs) 1) as [_ | N]; [| contradiction].
    destruct zs as [| c [| ? ?]]; try discriminate E1.
    destruct (y a) as [| u [| ? ?]] eqn:Ey; try discriminate Hlen.
    cbn [data arr1 hd map ndim shape length Nat.sub repeat app bind].
    change (mk_ndarray [1%nat] [op u c]) with (arr1 [op u c]).
    rewrite init_attrs_split by (rewrite Hxy; reflexivity).
    reflexivity.
  - cbn [negb ndim arr1 shape length Nat.eqb bind].
    rewrite Hxy, <- Hlen, Nat.eqb_refl. cbn [negb bind].
    rewrite size_arr1.
    destruct (Nat.eqb_spec (length zs) 1) as [N | _]; [contradiction |].
    cbn [ndim arr1 shape length Nat.eqb data].
    rewrite Hlen, Nat.eqb_refl. cbn [bind].
    fold (zip_with op (y a) zs).
    rewrite init_attrs_split
      by (rewrite length_zip_with by exact Hlen; exact Hxy).
    reflexivity.
Qed.

Lemma array_equal_length (l1 l2 : list npfloat) :
  array_equal l1 l2 = true -> length l1 = length l2.
Proof.
  revert l2. induction l1 as [| a t IH]; intros [| b u] H;
    simpl in *; try discriminate H; [reflexivity |].
  apply andb_true_iff in H. f_equal. now apply IH.
Qed.

Lemma binop_Data_equal_x (op : npfloat -> npfloat -> npfloat) (a b : Data) :
  invariant a -> invariant b -> array_equal (x a) (x b) = true ->
  Data_binop op a (OpData b)
  = Ok (data_of_columns (x a) (zip_with op (y a) (y b))).
Proof.
  intros Ha Hb E.
  assert (Hlen : length (y b) = length (y a)).
  { destruct Ha as (_ & _ & _ & Hxa & _), Hb as (_ & _ & _ & Hxb & _).
    rewrite <- Hxa, <- Hxb. symmetry. now apply array_equal_length. }
  rewrite <- (binop_y_array op a (y b) Ha Hlen).
  unfold Data_binop.
  replace (maths_check a (OpData b))
    with (maths_check a (OpArray (arr1 (y b)))); [reflexivity |].
  unfold maths_check. rewrite E, size_arr1.
  destruct (length (y b) =? 1)%nat; [reflexivity |].
  cbn [ndim arr1 shape length Nat.eqb negb].
  destruct Ha as (_ & _ & _ & Hxa & _).
  now rewrite Hlen, Hxa, Nat.eqb_refl.
Qed.

Lemma binop_Data_unequal_x (op : npfloat -> npfloat -> npfloat)
  (a b : Data) :
  array_equal (x a) (x b) = false ->
  Data_binop op a (OpData b) = Raise MismatchedAxisError.
Proof. intros E. unfold Data_binop, maths_check. now rewrite E. Qed.

(** X5.  An operator between two containers: when the x columns are equal
    element by element, the result keeps the x column of the left operand
    and combines the y columns element by element; otherwise the operator
    raises the mismatched-x error. *)
Theorem binop_Data_operand (op : npfloat -> npfloat -> npfloat)
  (a b : Data) :
  invariant a -> invariant b ->
  (array_equal (x a) (x b) = true ->
   Data_binop op a (OpData b)
   = Ok (data_of_columns (x a) (zip_with op (y a) (y b)))) /\
  (array_equal (x a) (x b) = false ->
   Data_binop op a (OpData b) = Raise MismatchedAxisError).
Proof.
  intros Ha Hb. split.
  - now apply binop_Data_equal_x.
  - apply binop_Data_unequal_x.
Qed.

Lemma binop_Data_operand_witness :
  Data_binop fmul squares (OpData squares)
  = Ok (data_of_columns (x squares)
          [of_Z 0; of_Z 1; of_Z 16; of_Z 81; of_Z 256]) /\
  Data_binop fmul squares (OpData falling) = Raise MismatchedAxisError.
Proof.
  destruct (binop_Data_operand fmul squares squares
              (data_of_rows_invariant _) (data_of_rows_invariant _))
    as [Hok _].
  destruct (binop_Data_operand fmul squares falling
              (data_of_rows_invariant _) (data_of_rows_invariant _))
    as [_ Hraise].
  split; [exact (Hok eq_refl) | exact (Hraise eq_refl)].
Defined.

Lemma feq_refl_iff (a : npfloat) : feq a a = true <-> isnan a = false.
Proof.
  destruct a; simpl; split; intros H; try reflexivity; try discriminate H.
  apply Qeq_bool_iff. reflexivity.
Qed.

Lemma array_equal_refl_iff (l : list npfloat) :
  array_equal l l = true <-> not_nan l.
Proof.
  unfold not_nan. induction l as [| a t IH]; simpl.
  - split; [intros _ e [] | reflexivity].
  - rewrite andb_true_iff, feq_refl_iff, IH. split.
    + intros [Ha Ht] e [<- | He]; [exact Ha | now apply Ht].
    + intros H. split; [apply H; now left |].
      intros e He. apply H. now right.
Qed.

(** X6.  A container combines with itself exactly when its x column holds
    no NaN: NaN differs from itself, so one NaN in x makes every operator
    between the container and itself raise the mismatched-x error. *)
Theorem self_arithmetic_needs_no_nan (op : npfloat -> npfloat -> npfloat)
  (d : Data) :
  invariant d ->
  (not_nan (x d) ->
   Data_binop op d (OpData d)
   = Ok (data_of_columns (x d) (zip_with op (y d) (y d)))) /\
  (In NaN (x d) -> Data_binop op d (OpData d) = Raise MismatchedAxisError).
Proof.
  intros Hinv. split.
  - intros Hnn. apply binop_Data_equal_x; try assumption.
    now apply array_equal_refl_iff.
  - intros Hin. apply binop_Data_unequal_x.
    destruct (array_equal (x d) (x d)) eqn:E; [| reflexivity].
    apply array_equal_refl_iff in E. now discriminate (E NaN Hin).
Qed.

Lemma self_arithmetic_witness :
  Data_binop fadd squares (OpData squares)
  = Ok (data_of_columns (x squares)
          [of_Z 0; of_Z 2; of_Z 8; of_Z 18; of_Z 32]) /\
  Data_binop fadd (data_of_rows [(NaN, of_Z 1)])
    (OpData (data_of_rows [(NaN, of_Z 1)])) = Raise MismatchedAxisError.
Proof.
  split.
  - apply (proj1 (self_arithmetic_needs_no_nan fadd squares
                    (data_of_rows_invariant _))).
    intros e He. simpl in He.
    repeat (destruct He as [<- | He]; [reflexivity |]). destruct He.
  - apply (proj2 (self_arithmetic_needs_no_nan fadd
                    (data_of_rows [(NaN, of_Z 1)])
                    (data_of_rows_invariant _))).
    now left.
Defined.

(** ** Equality *)

Lemma feq_sym (a b : npfloat) : feq a b = feq b a.
Proof.
  destruct a, b; simpl; try reflexivity.
  apply eq_true_iff_eq. split; apply Qeq_bool_sym.
Qed.

Lemma array_equal_sym (l1 l2 : list npfloat) :
  array_equal l1 l2 = array_equal l2 l1.
Proof.
  revert l2. induction l1 as [| a t IH]; intros [| b u]; simpl;
    try reflexivity.
  now rewrite feq_sym, IH.
Qed.

(** X7.  Equality of containers is symmetric, and a container equals
    itself exactly when its matrix holds no NaN. *)
Theorem Data_eq_sym_refl (a b : Data) :
  Data_eq a b = Data_eq b a /\
  (Data_eq a a = true <-> not_nan (flatten_rows (values a))).
Proof.
  unfold Data_eq. split.
  - now rewrite Nat.eqb_sym, array_equal_sym.
  - rewrite Nat.eqb_refl. cbn [andb]. apply array_equal_refl_iff.
Qed.

Lemma binop_array_wrong_shape (op : npfloat -> npfloat -> npfloat)
  (d : Data) (a : ndarray) :
  size a <> 1%nat -> ndim a <> 1%nat \/ size a <> length (x d) ->
  Data_binop op d (OpArray a) = Raise ShapeError.
Proof.
  intros H1 H. unfold Data_binop, maths_check.
  destruct (Nat.eqb_spec (size a) 1) as [E | _]; [contradiction |].
  destruct (Nat.eqb_spec (ndim a) 1) as [E1 | E1]; [| reflexivity].
  destruct (Nat.eqb_spec (size a) (length (x d))) as [E2 | E2];
    [| reflexivity].
  destruct H; contradiction.
Qed.

Lemma binop_scalar_right (op : npfloat -> npfloat -> npfloat) (d : Data)
  (c : npfloat) :
  invariant d ->
  Data_binop op d (OpArray (arr0 c))
  = Ok (data_of_columns (x d) (map (fun v => op v c) (y d))).
Proof.
  intros (_ & _ & _ & Hxy & _).
  unfold Data_binop, maths_check, ufunc2.
  cbn [size arr0 shape fold_right Nat.eqb bind ndim length Nat.sub repeat
       app data hd].
  replace (mk_ndarray [length (y d)] (map (fun v => op v c) (y d)))
    with (arr1 (map (fun v => op v c) (y d)))
    by (unfold arr1; now rewrite length_map).
  apply init_attrs_split. now rewrite length_map.
Qed.

(** X8.  What the operators refuse as right operand: an object that is no
    array ([TypeError]); an array with several elements that is not 1-D, or
    whose length is not the length of the container ([ShapeError]).  An
    array with a single element and two or more dimensions passes the check,
    but the result of the broadcast is no longer 1-D and the constructor
    refuses it ([ShapeError]). *)
Theorem binop_operand_errors (op : npfloat -> npfloat -> npfloat)
  (d : Data) (a : ndarray) :
  Data_binop op d OpOther = Raise TypeError /\
  (size a <> 1%nat -> ndim a <> 1%nat \/ size a <> length (x d) ->
   Data_binop op d (OpArray a) = Raise ShapeError) /\
  (size a = 1%nat -> (2 <= ndim a)%nat ->
   Data_binop op d (OpArray a) = Raise ShapeError).
Proof.
  split; [reflexivity | split].
  - apply binop_array_wrong_shape.
  - intros H1 H2. unfold Data_binop, maths_check, ufunc2.
    rewrite H1. cbn [Nat.eqb bind]. rewrite H1. cbn [Nat.eqb bind].
    unfold init_attrs. cbn [bind ndim arr1 shape length Nat.eqb negb].
    destruct (ndim a) as [| [| n]] eqn:En; try lia.
    cbn [Nat.sub repeat app length].
    rewrite length_app. cbn [length].
    destruct (Nat.eqb_spec (S (length (repeat 1%nat n) + 1)) 1) as [E | _];
      [lia | reflexivity].
Qed.

Lemma binop_operand_errors_witness :
  Data_binop fadd squares (OpArray (arr1 [of_Z 1; of_Z 2]))
  = Raise ShapeError /\
  Data_binop fadd squares (OpArray (mk_ndarray [1; 1]%nat [of_Z 1]))
  = Raise ShapeError.
Proof.
  destruct (binop_operand_errors fadd squares (arr1 [of_Z 1; of_Z 2]))
    as (_ & H1 & _).
  destruct (binop_operand_errors fadd squares
              (mk_ndarray [1; 1]%nat [of_Z 1])) as (_ & _ & H2).
  split.
  - apply H1; [discriminate | right; discriminate].
  - apply H2; [reflexivity | apply Nat.le_refl].
Defined.

(** X9.  An operator with a scalar keeps the x column and applies the
    scalar to every y value, on the right for the operator and on the left
    for its reflected form. *)
Theorem binop_scalar (op : npfloat -> npfloat -> npfloat) (d : Data)
  (c : npfloat) :
  invariant d ->
  Data_binop op d (OpArray (arr0 c))
  = Ok (data_of_columns (x d) (map (fun v => op v c) (y d))) /\
  Data_rbinop op d (OpArray (arr0 c))
  = Ok (data_of_columns (x d) (map (fun v => op c v) (y d))).
Proof.
  intros Hinv. split.
  - now apply binop_scalar_right.
  - unfold Data_rbinop.
    exact (binop_scalar_right (fun a b => op b a) d c Hinv).
Qed.

Lemma binop_scalar_witness :
  Data_sub falling (OpArray (arr0 (of_Z 1)))
  = Ok (data_of_columns (x falling) [of_Z 4; of_Z 2]) /\
  Data_rsub falling (OpArray (arr0 (of_Z 1)))
  = Ok (data_of_columns (x falling) [of_Z (-4); of_Z (-2)]).
Proof.
  exact (binop_scalar fsub falling (of_Z 1) (data_of_rows_invariant _)).
Defined.

(** ** Indexing *)

Lemma take_mask_positions_app {A : Type} (m : list bool) :
  forall (pre rows : list A),
    length m = length rows ->
    take (pre ++ rows) (mask_positions m (length pre)) = mask_rows rows m.
Proof.
  unfold mask_rows.
  induction m as [| b m IH]; intros pre [| r rows] Hlen;
    try discriminate Hlen; [reflexivity |].
  injection Hlen as Hlen.
  assert (Hrest : take (pre ++ r :: rows) (mask_positions m (S (length pre)))
                  = map fst (filter snd (combine rows m))).
  { change (pre ++ r :: rows) with (pre ++ [r] ++ rows).
    rewrite app_assoc, <- (last_length pre r). now apply IH. }
  cbn [mask_positions combine filter snd].
  destruct b; cbn [take map fst]; [| exact Hrest].
  rewrite nth_error_app2, Nat.sub_diag by lia. cbn [nth_error].
  now rewrite Hrest.
Qed.

Lemma take_mask_positions {A : Type} (m : list bool) (rows : list A) :
  length m = length rows ->
  take rows (mask_positions m 0) = mask_rows rows m.
Proof. exact (take_mask_positions_app m [] rows). Qed.

(** X10.  Indexing with a boolean mask that has one entry per row (and
    more than one entry) gives a new container with exactly the rows whose
    entry is true, in their order; a mask of another length is refused with
    [IndexError]. *)
Theorem getitem_mask (d : Data) (m : list bool) :
  invariant d -> length m <> 1%nat ->
  (length m = length (x d) ->
   Data_getitem d (IdxMask m)
   = Ok (ItemData (data_of_rows (mask_rows (values d) m)))) /\
  (length m <> length (x d) -> Data_getitem d (IdxMask m) = Raise IndexError).
Proof.
  intros (_ & _ & _ & _ & Hn) H1. unfold Data_getitem, index_check.
  destruct (Nat.eqb_spec (length m) 1) as [E | _]; [contradiction |].
  split; intros H.
  - rewrite H, Nat.eqb_refl. cbn [negb bind selection].
    rewrite <- Hn, H, Nat.eqb_refl. cbn [bind].
    rewrite (take_mask_positions m (values d)) by congruence.
    now rewrite init_attrs_arr2.
  - destruct (Nat.eqb_spec (length m) (length (x d))) as [E | _];
      [contradiction | reflexivity].
Qed.

Lemma getitem_mask_witness :
  Data_getitem falling (IdxMask [false; true])
  = Ok (ItemData (data_of_rows [(of_Z 1, of_Z 3)])) /\
  Data_getitem falling (IdxMask [true; true; false]) = Raise IndexError.
Proof.
  destruct (getitem_mask falling [false; true] (data_of_rows_invariant _)
              ltac:(discriminate)) as [H1 _].
  destruct (getitem_mask falling [true; true; false]
              (data_of_rows_invariant _) ltac:(discriminate)) as [_ H2].
  split; [exact (H1 eq_refl) | apply H2; discriminate].
Defined.

Lemma skipn_nth_error {A : Type} (l : list A) : forall i v,
  nth_error l i = Some v -> skipn i l = v :: skipn (S i) l.
Proof.
  induction l as [| h t IH]; intros [| i] v H; try discriminate H.
  - now injection H as ->.
  - cbn [skipn]. now apply IH.
Qed.

Lemma take_seq_firstn {A : Type} (l : list A) : forall n lo,
  (lo + n <= length l)%nat ->
  take l (seq lo n) = firstn n (skipn lo l).
Proof.
  induction n as [| n IH]; intros lo Hle; [reflexivity |].
  cbn [seq take].
  destruct (nth_error l lo) as [v |] eqn:E.
  - rewrite (skipn_nth_error l lo v E). cbn [firstn]. f_equal.
    apply IH. lia.
  - apply nth_error_None in E. lia.
Qed.

Lemma slice_bound_le (n dflt : nat) (b : option Z) :
  (dflt <= n)%nat -> (slice_bound n dflt b <= n)%nat.
Proof.
  intros H. destruct b as [z |]; simpl; [| exact H].
  destruct (Z.ltb_spec z 0); lia.
Qed.

(** X11.  Indexing with a slice gives a new container over the rows
    between the two clipped bounds, in their order; the full slice [d[:]]
    gives a copy of the container. *)
Theorem getitem_slice_rows (d : Data) (start stop : option Z) :
  Data_getitem d (IdxSlice start stop)
  = Ok (ItemData
          (data_of_rows
             (slice (values d)
                (slice_bound (length (values d)) 0 start)
                (slice_bound (length (values d)) (length (values d)) stop))))
  /\
  (invariant d -> Data_getitem d (IdxSlice None None) = Ok (ItemData d)).
Proof.
  split.
  - rewrite getitem_slice. cbv zeta. unfold slice.
    rewrite take_seq_firstn; [reflexivity |].
    pose proof (slice_bound_le (length (values d)) (length (values d)) stop
                  (Nat.le_refl _)).
    pose proof (slice_bound_le (length (values d)) 0 start (Nat.le_0_l _)).
    lia.
  - intros H. rewrite getitem_slice. cbv zeta. cbn [slice_bound].
    rewrite Nat.sub_0_r, take_seq.
    do 2 f_equal. symmetry. exact (invariant_data_of_rows d H).
Qed.

Lemma getitem_slice_rows_witness :
  Data_getitem squares (IdxSlice (Some 1%Z) (Some (-1)%Z))
  = Ok (ItemData (data_of_rows [(of_Z 1, of_Z 1); (of_Z 2, of_Z 4);
                                (of_Z 3, of_Z 9)])) /\
  Data_getitem squares (IdxSlice None None) = Ok (ItemData squares).
Proof.
  split.
  - exact (proj1 (getitem_slice_rows squares (Some 1%Z) (Some (-1)%Z))).
  - apply (proj2 (getitem_slice_rows squares None None)).
    apply data_of_rows_invariant.
Defined.

(** ** Setters *)

Lemma update_nth_length {A : Type} (l : list A) : forall i v,
  length (update_nth l i v) = length l.
Proof.
  induction l as [| h t IH]; intros [| i] v; simpl; try reflexivity.
  now rewrite IH.
Qed.

Lemma assign_at_length {A : Type} (pos : list nat) : forall (l vs : list A),
  length (assign_at l pos vs) = length l.
Proof.
  induction pos as [| i pos IH]; intros l [| v vs]; simpl; try reflexivity.
  now rewrite IH, update_nth_length.
Qed.

Lemma setitem_length {A : Type} (l l' : list A) (pos : list nat)
  (vs : list A) :
  setitem l pos vs = Ok l' -> length l' = length l.
Proof.
  unfold setitem.
  destruct (length vs =? length pos)%nat.
  - intros H. injection H as <-. apply assign_at_length.
  - destruct vs as [| v [| ? ?]]; intros H; try discriminate H.
    injection H as <-. apply assign_at_length.
Qed.

(** X12.  The setters never change the number of rows, and a setter of one
    column leaves the other column as it was. *)
Theorem setters_keep_rows (d r : Data) (k : index) :
  invariant d ->
  (forall v, set_x d k v = Ok r ->
     y r = y d /\ length (x r) = length (x d)) /\
  (forall v, set_y d k v = Ok r ->
     x r = x d /\ length (y r) = length (y d)) /\
  (forall v, set_data d k v = Ok r ->
     length (values r) = length (values d)).
Proof.
  intros (_ & _ & _ & Hxy & Hn). split; [| split]; intros v H.
  - unfold set_x in H. destruct v as [? | c | l]; try discriminate H.
    + bind_inv H. bind_inv H. bind_inv H.
      apply setitem_length in Hstep1.
      apply init_attrs_split_Ok in H. destruct H as [_ ->]. now split.
    + bind_inv H. bind_inv H. bind_inv H.
      apply setitem_length in Hstep1.
      apply init_attrs_split_Ok in H. destruct H as [_ ->]. now split.
  - unfold set_y in H. destruct v as [? | c | l]; try discriminate H.
    + bind_inv H. bind_inv H. bind_inv H.
      apply setitem_length in Hstep1.
      apply init_attrs_split_Ok in H. destruct H as [_ ->]. now split.
    + bind_inv H. bind_inv H. bind_inv H.
      apply setitem_length in Hstep1.
      apply init_attrs_split_Ok in H. destruct H as [_ ->]. now split.
  - unfold set_data in H. bind_inv H. bind_inv H.
    assert (Hassign : forall rows,
              (pos <- selection (length (values d)) k ;;
               new_data <- setitem (values d) pos rows ;;
               init_attrs (OfArray (arr2 new_data)) None SS_False) = Ok r ->
              length (values r) = length (values d)).
    { intros rows Hr. bind_inv Hr. bind_inv Hr.
      rewrite init_attrs_arr2 in Hr. injection Hr as <-.
      cbn [values]. now apply setitem_length in Hstep2. }
    destruct v as [dv | arr |]; [| | discriminate H].
    + destruct (negb _); [discriminate H |]. now apply (Hassign (values dv)).
    + destruct (negb _); [discriminate H |].
      destruct (negb _); [discriminate H |].
      destruct (negb _); [discriminate H |].
      now apply (Hassign (rows_of (data arr))).
Qed.

Lemma setters_keep_rows_witness :
  set_x falling (IdxSlice None None) (SetScalar (of_Z 7))
  = Ok (data_of_columns [of_Z 7; of_Z 7] (y falling)) /\
  y (data_of_columns [of_Z 7; of_Z 7] (y falling)) = y falling /\
  length (x (data_of_columns [of_Z 7; of_Z 7] (y falling)))
  = length (x falling).
Proof.
  split; [reflexivity |].
  exact (proj1 (setters_keep_rows falling
                  (data_of_columns [of_Z 7; of_Z 7] (y falling))
                  (IdxSlice None None) (data_of_rows_invariant _))
           (SetScalar (of_Z 7)) eq_refl).
Defined.

Lemma setitem_single {A : Type} (l : list A) (i : nat) (v : A) :
  setitem l [i] [v] = Ok (update_nth l i v).
Proof. reflexivity. Qed.

(** X13.  Setting one y value by an integer index within the bounds
    replaces that value only and keeps x; an index outside the bounds
    raises [IndexError], and a [Data] given as value raises [TypeError]. *)
Theorem set_y_int (d : Data) (i : Z) (c : npfloat) :
  invariant d ->
  ((0 <= i < Z.of_nat (length (y d)))%Z ->
   set_y d (IdxInt i) (SetScalar c)
   = Ok (data_of_columns (x d) (update_nth (y d) (Z.to_nat i) c))) /\
  ((i < - Z.of_nat (length (y d)) \/ Z.of_nat (length (y d)) <= i)%Z ->
   set_y d (IdxInt i) (SetScalar c) = Raise IndexError) /\
  (forall v, set_y d (IdxInt i) (SetData v) = Raise TypeError).
Proof.
  intros (_ & _ & _ & Hxy & _). split; [| split].
  - intros Hi. unfold set_y. cbn [index_check bind selection].
    destruct (Z.ltb_spec i 0) as [? | _]; [lia |].
    destruct (Z.leb_spec 0 i) as [_ | ?]; [| lia].
    destruct (Z.ltb_spec i (Z.of_nat (length (y d)))) as [_ | ?]; [| lia].
    cbn [andb bind]. rewrite setitem_single. cbn [bind].
    apply init_attrs_split. now rewrite update_nth_length.
  - intros Hi. unfold set_y. cbn [index_check bind selection].
    destruct (Z.ltb_spec i 0) as [Hneg | Hpos].
    + destruct (Z.leb_spec 0 (i + Z.of_nat (length (y d)))) as [? | _];
        [lia | reflexivity].
    + destruct (Z.leb_spec 0 i) as [_ | ?]; [| lia].
      destruct (Z.ltb_spec i (Z.of_nat (length (y d)))) as [? | _];
        [lia | reflexivity].
  - reflexivity.
Qed.

Lemma set_y_int_witness :
  set_y falling (IdxInt 1) (SetScalar (of_Z 9))
  = Ok (data_of_columns (x falling) [of_Z 5; of_Z 9]) /\
  set_y falling (IdxInt 2) (SetScalar (of_Z 9)) = Raise IndexError.
Proof.
  destruct (set_y_int falling 1 (of_Z 9) (data_of_rows_invariant _))
    as (H1 & _ & _).
  destruct (set_y_int falling 2 (of_Z 9) (data_of_rows_invariant _))
    as (_ & H2 & _).
  split; [apply H1; simpl; lia | apply H2; simpl; lia].
Defined.

(** ** Sorting and cutting *)

Lemma insert_idx_perm (keys : list npfloat) (i : nat) (l : list nat) :
  Permutation (insert_idx keys i l) (i :: l).
Proof.
  induction l as [| h t IH]; [apply Permutation_refl |].
  cbn [insert_idx].
  destruct (np_lt (nth h keys NaN) (nth i keys NaN)).
  - apply Permutation_trans with (h :: i :: t).
    + now apply perm_skip.
    + apply perm_swap.
  - apply Permutation_refl.
Qed.

Lemma argsort_perm (keys : list npfloat) :
  Permutation (argsort keys) (seq 0 (length keys)).
Proof.
  unfold argsort. generalize (seq 0 (length keys)).
  induction l as [| i l IH]; [apply Permutation_refl |].
  cbn [fold_right].
  apply Permutation_trans with (i :: fold_right (insert_idx keys) [] l).
  - apply insert_idx_perm.
  - now apply perm_skip.
Qed.

Lemma argsort_valid (keys : list npfloat) (j : nat) :
  In j (argsort keys) -> (j < length keys)%nat.
Proof.
  intros H. apply (Permutation_in _ (argsort_perm keys)) in H.
  apply in_seq in H. lia.
Qed.

(** Taking the rows in the order of [argsort] permutes them. *)
Lemma take_argsort_perm {A : Type} (dflt : A) (l : list A)
  (keys : list npfloat) :
  length keys = length l -> Permutation (take l (argsort keys)) l.
Proof.
  intros Hlen.
  rewrite (take_valid l dflt (argsort keys))
    by (intros j Hj; rewrite <- Hlen; now apply argsort_valid).
  apply Permutation_trans
    with (map (fun i => nth i l dflt) (seq 0 (length l))).
  - apply Permutation_map. rewrite <- Hlen. apply argsort_perm.
  - rewrite <- (take_valid l dflt (seq 0 (length l)))
      by (intros j Hj; apply in_seq in Hj; lia).
    rewrite take_seq. apply Permutation_refl.
Qed.

Lemma map_take {A B : Type} (f : A -> B) (l : list A) (idx : list nat) :
  map f (take l idx) = take (map f l) idx.
Proof.
  induction idx as [| i t IH]; [reflexivity |].
  cbn [take]. rewrite nth_error_map.
  destruct (nth_error l i); cbn [option_map map]; now rewrite IH.
Qed.

Lemma sort_rows (d : Data) :
  sort d = Ok (data_of_rows (take (values d) (argsort (x d)))).
Proof. unfold sort. apply init_attrs_arr2. Qed.

Lemma sort_Ok (d : Data) :
  invariant d -> not_nan (x d) ->
  exists r, sort d = Ok r /\ invariant r /\ ascending (x r) = true /\
            Permutation (values r) (values d).
Proof.
  intros (Hx & _ & _ & _ & Hn) Hnn.
  exists (data_of_rows (take (values d) (argsort (x d)))).
  split; [apply sort_rows |]. split; [apply data_of_rows_invariant |].
  cbn [x values data_of_rows]. split.
  - unfold column0. rewrite map_take. fold (column0 (values d)).
    rewrite <- Hx. exact (proj1 (sorted_keys_spec (x d) Hnn)).
  - now apply (take_argsort_perm (NaN, NaN)).
Qed.

(** X14.  Sorting a container whose x column holds no NaN gives a new
    container whose x column is ascending and whose rows are the rows of
    the original, reordered. *)
Theorem sort_ascending_permutation (d : Data) :
  invariant d -> not_nan (x d) ->
  exists r, sort d = Ok r /\ ascending (x r) = true /\
            Permutation (values r) (values d).
Proof.
  intros Hinv Hnn.
  destruct (sort_Ok d Hinv Hnn) as (r & Hr & _ & Hasc & Hperm).
  exists r. repeat split; assumption.
Qed.

Lemma sort_ascending_permutation_witness :
  exists r,
    sort (data_of_rows [(of_Z 3, of_Z 0); (of_Z 1, of_Z 1); (PInf, NaN);
                        (of_Z 1, of_Z 9)]) = Ok r /\
    ascending (x r) = true /\
    Permutation (values r)
      [(of_Z 3, of_Z 0); (of_Z 1, of_Z 1); (PInf, NaN); (of_Z 1, of_Z 9)].
Proof.
  apply (sort_ascending_permutation
           (data_of_rows [(of_Z 3, of_Z 0); (of_Z 1, of_Z 1); (PInf, NaN);
                          (of_Z 1, of_Z 9)]) (data_of_rows_invariant _)).
  intros e He. simpl in He.
  repeat (destruct He as [<- | He]; [reflexivity |]). destruct He.
Defined.



(** [x_cut] on an ascending x column, for [a <= b]. *)
Lemma x_cut_rows (d : Data) (a b : npfloat) :
  invariant d -> ascending (x d) = true -> fle a b = true ->
  x_cut d a b = Ok (data_of_rows (filter (in_range a b) (values d))).
Proof.
  intros (Hx & _) Hasc Hab. unfold x_cut.
  destruct (fle_not_nan _ _ Hab) as [Ha Hb].
  unfold fgt. rewrite (flt_negb_fle b a Hb Ha), Hab. cbn [negb].
  rewrite init_attrs_arr2. rewrite Hx in *.
  now rewrite (searchsorted_slice (values d) a b Hasc Hab).
Qed.

(** X16.  Sorting first makes [x_cut] exact on any container without NaN
    in x: the rows of [sort] followed by [x_cut(a, b)] are exactly the rows
    of the original whose x lies in [a, b]. *)
Theorem sort_then_x_cut (d : Data) (a b : npfloat) :
  invariant d -> not_nan (x d) -> fle a b = true ->
  exists s r,
    sort d = Ok s /\ x_cut s a b = Ok r /\
    forall row, In row (values r) <->
                In row (values d) /\ in_range a b row = true.
Proof.
  intros Hinv Hnn Hab.
  destruct (sort_Ok d Hinv Hnn) as (s & Hs & Hsinv & Hasc & Hperm).
  exists s, (data_of_rows (filter (in_range a b) (values s))).
  split; [exact Hs |]. split; [now apply x_cut_rows |].
  intros row. cbn [values data_of_rows]. rewrite filter_In.
  split; intros [Hin Hr]; (split; [| exact Hr]).
  - exact (Permutation_in _ Hperm Hin).
  - exact (Permutation_in _ (Permutation_sym Hperm) Hin).
Qed.

Lemma sort_then_x_cut_witness :
  exists s r,
    sort (data_of_rows [(of_Z 3, of_Z 0); (of_Z 1, of_Z 1);
                        (of_Z 2, of_Z 4)]) = Ok s /\
    x_cut s (of_Z 2) (of_Z 3) = Ok r /\
    forall row, In row (values r) <->
      In row [(of_Z 3, of_Z 0); (of_Z 1, of_Z 1); (of_Z 2, of_Z 4)] /\
      in_range (of_Z 2) (of_Z 3) row = true.
Proof.
  apply (sort_then_x_cut
           (data_of_rows [(of_Z 3, of_Z 0); (of_Z 1, of_Z 1);
                          (of_Z 2, of_Z 4)])
           (of_Z 2) (of_Z 3) (data_of_rows_invariant _));
    [| reflexivity].
  intros e He. simpl in He.
  repeat (destruct He as [<- | He]; [reflexivity |]). destruct He.
Defined.

Lemma ascending_cons (a : npfloat) (l : list npfloat) :
  (forall e, In e l -> fle a e = true) -> ascending l = true ->
  ascending (a :: l) = true.
Proof.
  destruct l as [| b t]; intros H Hasc; [reflexivity |].
  cbn [ascending]. rewrite (H b (or_introl eq_refl)). exact Hasc.
Qed.

Lemma ascending_filter_not_nan (q : npfloat * npfloat -> bool)
  (rows : list (npfloat * npfloat)) :
  not_nan (map fst rows) -> ascending (map fst rows) = true ->
  ascending (map fst (filter q rows)) = true.
Proof.
  induction rows as [| r l IH]; intros Hnn Hasc; [reflexivity |].
  cbn [map] in Hnn, Hasc.
  assert (Ht : ascending (map fst (filter q l)) = true).
  { apply IH; [| exact (ascending_tail _ _ Hasc)].
    intros e He. apply Hnn. now right. }
  cbn [filter]. destruct (q r); [| exact Ht].
  cbn [map]. apply ascending_cons; [| exact Ht].
  intros e He. apply (ascending_hd_le (map fst l) (fst r) Hasc Hnn).
  right. apply in_map_iff in He. destruct He as (row & <- & Hrow).
  apply in_map. now apply filter_In in Hrow.
Qed.

(** Removing rows keeps an ascending x column ascending. *)
Lemma ascending_filter (q : npfloat * npfloat -> bool)
  (rows : list (npfloat * npfloat)) :
  ascending (column0 rows) = true ->
  ascending (column0 (filter q rows)) = true.
Proof.
  unfold column0.
  destruct rows as [| h [| h2 t]].
  - reflexivity.
  - intros _. simpl. now destruct (q h).
  - intros Hasc. apply ascending_filter_not_nan; [| exact Hasc].
    exact (ascending_not_nan _ _ _ Hasc).
Qed.

Lemma filter_andb {A : Type} (p q : A -> bool) (l : list A) :
  filter q (filter p l) = filter (fun e => p e && q e) l.
Proof.
  induction l as [| h t IH]; [reflexivity |].
  simpl. destruct (p h); simpl; [destruct (q h); now rewrite IH | exact IH].
Qed.

(** X17.  Cutting an ascending container gives an ascending container, so
    cuts compose: cutting to [a, b] and then to [a', b'] keeps exactly the
    rows whose x lies in both ranges; in particular a second cut to the
    same range changes nothing. *)
Theorem x_cut_composes (d : Data) (a b a' b' : npfloat) :
  invariant d -> ascending (x d) = true ->
  fle a b = true -> fle a' b' = true ->
  exists r,
    x_cut d a b = Ok r /\ ascending (x r) = true /\
    x_cut r a' b'
    = Ok (data_of_rows
            (filter (fun row => in_range a b row && in_range a' b' row)
               (values d))) /\
    x_cut r a b = Ok r.
Proof.
  intros Hinv Hasc Hab Hab'.
  exists (data_of_rows (filter (in_range a b) (values d))).
  assert (Hasc' : ascending (column0 (filter (in_range a b) (values d)))
                  = true).
  { apply ascending_filter. destruct Hinv as (Hx & _). now rewrite <- Hx. }
  split; [now apply x_cut_rows |]. split; [exact Hasc' |]. split.
  - rewrite x_cut_rows;
      [| apply data_of_rows_invariant | exact Hasc' | exact Hab'].
    cbn [values data_of_rows]. now rewrite filter_andb.
  - rewrite x_cut_rows;
      [| apply data_of_rows_invariant | exact Hasc' | exact Hab].
    cbn [values data_of_rows]. now rewrite filter_idempotent.
Qed.

Lemma x_cut_composes_witness :
  exists r,
    x_cut squares (of_Z 1) (of_Z 3) = Ok r /\ ascending (x r) = true /\
    x_cut r (of_Z 2) (of_Z 9)
    = Ok (data_of_rows
            (filter (fun row => in_range (of_Z 1) (of_Z 3) row
                                && in_range (of_Z 2) (of_Z 9) row)
               (values squares))) /\
    x_cut r (of_Z 1) (of_Z 3) = Ok r.
Proof.
  apply (x_cut_composes squares (of_Z 1) (of_Z 3) (of_Z 2) (of_Z 9)
           (data_of_rows_invariant _)); reflexivity.
Defined.

(** ** Sum and mean *)

Lemma data_of_columns_invariant (xs ys : list npfloat) :
  length xs = length ys -> invariant (data_of_columns xs ys).
Proof.
  intros H. unfold invariant, data_of_columns. cbn [x y values both].
  rewrite (column0_combine xs ys H), (column1_combine xs ys H).
  repeat split; try assumption.
  rewrite length_combine, H. symmetry. apply Nat.min_id.
Qed.

Lemma length_fold_add_columns (cols : list (list npfloat)) :
  forall ys, (forall zs, In zs cols -> length zs = length ys) ->
             length (fold_left add_columns cols ys) = length ys.
Proof.
  induction cols as [| zs cols IH]; intros ys H; [reflexivity |].
  cbn [fold_left].
  assert (Hz : length zs = length ys) by (apply H; now left).
  rewrite IH; [now apply length_add_columns |].
  intros zs' Hz'. rewrite length_add_columns by exact Hz.
  apply H. now right.
Qed.

Lemma sum_loop_same_length (rest : list Data) : forall total,
  invariant total ->
  (forall d, In d rest -> length (y d) = length (y total)) ->
  sum_loop total rest
  = Ok (data_of_columns (x total)
          (fold_left add_columns (map y rest) (y total))).
Proof.
  induction rest as [| d rest IH]; intros total Hinv Hlen.
  - cbn [sum_loop map fold_left]. f_equal.
    now apply invariant_data_of_columns.
  - assert (Hd : length (y d) = length (y total)) by (apply Hlen; now left).
    cbn [sum_loop map fold_left]. unfold Data_add.
    rewrite (binop_y_array fadd total (y d) Hinv Hd). cbn [bind].
    fold (add_columns (y total) (y d)).
    rewrite IH.
    + reflexivity.
    + apply data_of_columns_invariant.
      rewrite length_add_columns by exact Hd.
      now destruct Hinv as (_ & _ & _ & Hxy & _).
    + intros e He. cbn [y data_of_columns].
      rewrite length_add_columns by exact Hd. apply Hlen. now right.
Qed.

(** X18.  For containers that all have the number of rows of the first,
    [sum_data] returns the x column of the first with the element-wise sum
    of all the y columns; a list of one container gives that container, and
    an empty list raises [IndexError]. *)
Theorem sum_data_same_length (first : Data) (rest : list Data) :
  invariant first ->
  (forall d, In d rest -> length (y d) = length (y first)) ->
  sum_data (first :: rest)
  = Ok (data_of_columns (x first)
          (fold_left add_columns (map y rest) (y first))) /\
  sum_data [first] = Ok first /\
  sum_data [] = Raise IndexError.
Proof.
  intros Hinv Hlen. split; [| split; reflexivity].
  now apply sum_loop_same_length.
Qed.

Lemma sum_data_same_length_witness :
  sum_data [squares; squares; squares]
  = Ok (data_of_columns (x squares)
          [of_Z 0; of_Z 3; of_Z 12; of_Z 27; of_Z 48]) /\
  sum_data [squares] = Ok squares /\
  sum_data [] = Raise IndexError.
Proof.
  apply (sum_data_same_length squares [squares; squares]
           (data_of_rows_invariant _)).
  intros d [<- | [<- | []]]; reflexivity.
Defined.

(** X19.  A container with a single row is not refused by [sum_data]: its
    y value is added to every row of the total.  A container with another
    number of rows (neither one nor the number of rows of the total) makes
    it raise [ShapeError]. *)
Theorem sum_data_one_row_broadcast (a b : Data) :
  invariant a ->
  (forall c, y b = [c] ->
     sum_data [a; b]
     = Ok (data_of_columns (x a) (map (fun v => fadd v c) (y a)))) /\
  (length (y b) <> 1%nat -> length (y b) <> length (x a) ->
   sum_data [a; b] = Raise ShapeError).
Proof.
  intros Hinv. split.
  - intros c Hc. cbn [sum_data sum_loop]. rewrite Hc. unfold Data_add.
    change (arr1 [c]) with (mk_ndarray [1%nat] [c]).
    destruct Hinv as (_ & _ & _ & Hxy & _).
    unfold Data_binop, maths_check, ufunc2.
    cbn [size shape fold_right Nat.mul Nat.eqb bind ndim length Nat.sub
         repeat app data hd Nat.add].
    replace (mk_ndarray [length (y a)] (map (fun v => fadd v c) (y a)))
      with (arr1 (map (fun v => fadd v c) (y a)))
      by (unfold arr1; now rewrite length_map).
    rewrite init_attrs_split by now rewrite length_map.
    reflexivity.
  - intros H1 H2. cbn [sum_data sum_loop]. unfold Data_add.
    rewrite (binop_array_wrong_shape fadd a (arr1 (y b)));
      [reflexivity | now rewrite size_arr1 |].
    right. now rewrite size_arr1.
Qed.

Lemma sum_data_one_row_broadcast_witness :
  sum_data [falling; data_of_rows [(of_Z 9, of_Z 10)]]
  = Ok (data_of_columns (x falling) [of_Z 15; of_Z 13]) /\
  sum_data [squares; falling] = Raise ShapeError.
Proof.
  split.
  - exact (proj1 (sum_data_one_row_broadcast falling
                    (data_of_rows [(of_Z 9, of_Z 10)])
                    (data_of_rows_invariant _)) (of_Z 10) eq_refl).
  - apply (proj2 (sum_data_one_row_broadcast squares falling
                    (data_of_rows_invariant _))); discriminate.
Defined.

(** X20.  For containers that all have the number of rows of the first,
    [mean] returns the x column of the first with the element-wise sum of
    the y columns divided by the number of containers. *)
Theorem mean_same_length (first : Data) (rest : list Data) :
  invariant first ->
  (forall d, In d rest -> length (y d) = length (y first)) ->
  mean (first :: rest)
  = Ok (data_of_columns (x first)
          (map (fun v => fdiv v (of_Z (Z.of_nat (S (length rest)))))
             (fold_left add_columns (map y rest) (y first)))).
Proof.
  intros Hinv Hlen. unfold mean, sum_data.
  rewrite (sum_loop_same_length rest first Hinv Hlen). cbn [bind].
  unfold Data_truediv.
  assert (Hsum : invariant
            (data_of_columns (x first)
               (fold_left add_columns (map y rest) (y first)))).
  { apply data_of_columns_invariant.
    rewrite length_fold_add_columns.
    - now destruct Hinv as (_ & _ & _ & Hxy & _).
    - intros zs Hz. apply in_map_iff in Hz.
      destruct Hz as (d & <- & Hd). now apply Hlen. }
  exact (binop_scalar_right fdiv _ _ Hsum).
Qed.

Lemma mean_same_length_witness :
  mean [squares; squares] = Ok squares.
Proof.
  exact (mean_same_length squares [squares] (data_of_rows_invariant _)
           ltac:(intros d [<- | []]; reflexivity)).
Defined.

(** ** Range resampling *)





(** ** Resampling to a number of points *)





(** ** Point lookup *)

(** X23.  When every requested x lies within [min_x, max_x], the bounds
    check of [y_from_x] changes nothing: the call returns what it returns
    with the check disabled.  With the check enabled and no requested value
    at all, the call raises [ValueError]. *)
Theorem y_from_x_checked_in_range (d : Data) (qs : list npfloat)
  (lo hi : npfloat) :
  min_x d = Ok lo -> max_x d = Ok hi ->
  (qs <> [] ->
   (forall q, In q qs -> fle lo q = true /\ fle q hi = true) ->
   y_from_x d qs true = y_from_x d qs false) /\
  y_from_x d [] true = Raise ValueError.
Proof.
  intros Hlo Hhi. split; [| reflexivity].
  intros Hne Hin. unfold y_from_x.
  assert (Hnn : not_nan qs).
  { intros q Hq. destruct (Hin q Hq) as [_ H].
    now destruct (fle_not_nan _ _ H). }
  destruct qs as [| q0 qs']; [contradiction |].
  destruct (np_max_spec (q0 :: qs') _ Hnn eq_refl) as [Hmax_in _].
  destruct (np_min_spec (q0 :: qs') _ Hnn eq_refl) as [Hmin_in _].
  cbn [np_max np_min bind]. rewrite Hhi, Hlo. cbn [bind].
  destruct (Hin _ Hmax_in) as [_ H1]. destruct (Hin _ Hmin_in) as [H2 _].
  destruct (fle_not_nan _ _ H1) as [N1 N1'].
  destruct (fle_not_nan _ _ H2) as [N2 N2'].
  unfold fgt. rewrite (flt_negb_fle _ _ N1' N1), H1. cbn [negb].
  rewrite (flt_negb_fle _ _ N2' N2), H2. cbn [negb bind].
  reflexivity.
Qed.

Lemma y_from_x_checked_in_range_witness :
  y_from_x squares [Fin (3 # 2); of_Z 4] true
  = y_from_x squares [Fin (3 # 2); of_Z 4] false.
Proof.
  apply (proj1 (y_from_x_checked_in_range squares [Fin (3 # 2); of_Z 4]
                  (of_Z 0) (of_Z 4) eq_refl eq_refl));
    [discriminate |].
  intros q [<- | [<- | []]]; split; reflexivity.
Defined.

Lemma strictly_ascending_ascending (l : list npfloat) :
  strictly_ascending l = true -> ascending l = true.
Proof.
  induction l as [| a [| b t] IH]; intros H; try reflexivity.
  cbn [strictly_ascending] in H. apply andb_true_iff in H.
  destruct H as [Hab Ht]. cbn [ascending].
  rewrite (flt_fle a b Hab). now apply IH.
Qed.

Lemma strictly_ascending_next (l : list npfloat) : forall i,
  strictly_ascending l = true -> (S i < length l)%nat ->
  flt (nth i l NaN) (nth (S i) l NaN) = true.
Proof.
  induction l as [| a [| b t] IH]; intros i H Hi; try (simpl in Hi; lia).
  cbn [strictly_ascending] in H. apply andb_true_iff in H.
  destruct H as [Hab Ht].
  destruct i as [| i]; [exact Hab |].
  change (nth (S i) (a :: b :: t) NaN) with (nth i (b :: t) NaN).
  change (nth (S (S i)) (a :: b :: t) NaN) with (nth (S i) (b :: t) NaN).
  apply IH; [exact Ht | simpl in Hi |- *; lia].
Qed.

Lemma binsearch_bounds (p : npfloat -> bool) (a : list npfloat)
  (fuel : nat) : forall lo hi,
  (lo <= hi)%nat ->
  (lo <= binsearch p a fuel lo hi <= hi)%nat.
Proof.
  induction fuel as [| fuel IH]; intros lo hi Hle; [simpl; lia |].
  cbn [binsearch].
  destruct (Nat.ltb_spec lo hi) as [Hlt | Hge]; [| lia].
  assert (Hd : (Nat.div2 (hi - lo) < hi - lo)%nat)
    by (apply Nat.lt_div2; lia).
  remember (Nat.div2 (hi - lo)) as half eqn:Ehalf. clear Ehalf.
  destruct (p (nth (lo + half) a NaN)).
  - specialize (IH (S (lo + half)) hi ltac:(lia)). lia.
  - specialize (IH lo (lo + half)%nat ltac:(lia)). lia.
Qed.

(** [np.interp] at a sample point of a strictly ascending column gives the
    sample value. *)
Lemma np_interp_point_sample (xs ys : list npfloat) (i : nat) :
  strictly_ascending xs = true -> (i < length xs)%nat ->
  np_interp_point xs ys (nth i xs NaN) = nth i ys NaN /\
  flt (nth i xs NaN) (hd NaN xs) = false /\
  fgt (nth i xs NaN) (last xs NaN) = false.
Proof.
  intros Hstrict Hi.
  pose proof (strictly_ascending_ascending xs Hstrict) as Hasc.
  destruct xs as [| a [| b t]]; [simpl in Hi; lia | |].
  - (* one sample *)
    assert (i = 0%nat) by (simpl in Hi; lia). subst i.
    unfold np_interp_point, fgt. cbn [length Nat.eqb nth hd last].
    destruct (flt a a) eqn:E.
    + rewrite (flt_asym a a E) in E. discriminate E.
    + destruct ys; repeat split.
  - set (xs := a :: b :: t) in *.
    pose proof (ascending_not_nan t a b Hasc) as Hnn. fold xs in Hnn.
    set (xv := nth i xs NaN).
    assert (Hxv_in : In xv xs) by (apply nth_In; exact Hi).
    assert (Nxv : isnan xv = false) by now apply Hnn.
    assert (Hhd : flt xv (hd NaN xs) = false).
    { assert (N0 : isnan (hd NaN xs) = false) by (apply Hnn; now left).
      rewrite (flt_negb_fle xv _ Nxv N0).
      assert (Hle0 : fle (hd NaN xs) xv = true)
        by exact (ascending_hd_le (b :: t) a Hasc Hnn xv Hxv_in).
      now rewrite Hle0. }
    assert (Hlast : fgt xv (last xs NaN) = false).
    { unfold fgt.
      pose proof (ascending_le_last xs Hasc Hnn xv Hxv_in) as Hle.
      destruct (fle_not_nan _ _ Hle) as [_ Nl].
      now rewrite (flt_negb_fle _ xv Nl Nxv), Hle. }
    split; [| split; assumption].
    unfold np_interp_point.
    change (length xs =? 1)%nat with false. cbv iota.
    rewrite Nxv, Hlast, Hhd.
    set (r := binsearch (fun e => fle e xv) xs (length xs) 0 (length xs)).
    assert (Hmono : forall k j, (k <= j)%nat -> (j < length xs)%nat ->
              fle (nth j xs NaN) xv = true -> fle (nth k xs NaN) xv = true).
    { intros k j Hkj Hj H.
      destruct (Nat.eq_dec k j) as [-> | Hne]; [exact H |].
      apply fle_trans with (nth j xs NaN); [| exact H].
      apply ascending_nth; [exact Hasc | lia | exact Hj]. }
    pose proof (binsearch_index (fun e => fle e xv) xs Hmono) as Hidx.
    fold r in Hidx.
    assert (Hr : r = S i).
    { pose proof (binsearch_bounds (fun e => fle e xv) xs (length xs) 0
                    (length xs) (Nat.le_0_l _)) as Hb.
      fold r in Hb.
      assert (H1 : (i < r)%nat).
      { apply Nat.ltb_lt. rewrite <- (Hidx i Hi). now apply fle_refl. }
      destruct (Nat.lt_ge_cases (S i) (length xs)) as [Hlt | Hge]; [| lia].
      assert (H2 : (S i <? r)%nat = false).
      { rewrite <- (Hidx (S i) Hlt).
        pose proof (strictly_ascending_next xs i Hstrict Hlt) as Hnext.
        fold xv in Hnext.
        destruct (flt_not_nan _ _ Hnext) as [_ Nn].
        rewrite (fle_negb_flt _ xv Nn Nxv), Hnext. reflexivity. }
      apply Nat.ltb_ge in H2. lia. }
    rewrite Hr. cbn [Nat.sub]. rewrite Nat.sub_0_r.
    destruct (i =? length xs - 1)%nat; [reflexivity |].
    fold xv. now rewrite (proj2 (feq_refl_iff xv) Nxv).
Qed.

(** X24.  On a non-empty container whose x column is strictly ascending,
    [y_from_x] at a sample x returns the sample y, with or without the
    bounds check. *)
Theorem y_from_x_at_sample (d : Data) (i : nat) (bounds_error : bool) :
  invariant d -> strictly_ascending (x d) = true ->
  (i < length (x d))%nat ->
  y_from_x d [nth i (x d) NaN] bounds_error
  = Ok (Scalar (nth i (y d) NaN)).
Proof.
  intros Hinv Hstrict Hi.
  pose proof (strictly_ascending_ascending (x d) Hstrict) as Hasc.
  destruct (np_interp_point_sample (x d) (y d) i Hstrict Hi)
    as (Hval & Hlo & Hhi).
  assert (Hne : x d <> []).
  { intros E. rewrite E in Hi. simpl in Hi. lia. }
  assert (Hxy : length (x d) = length (y d))
    by now destruct Hinv as (_ & _ & _ & Hxy & _).
  destruct (np_min (y d)) as [ymin | e] eqn:Eymin;
    [| destruct (y d); [destruct (x d); [contradiction | discriminate]
                       | discriminate]].
  destruct (np_max (y d)) as [ymax | e] eqn:Eymax;
    [| destruct (y d); discriminate].
  assert (Hunchecked : y_from_x d [nth i (x d) NaN] false
                       = Ok (Scalar (nth i (y d) NaN))).
  { rewrite (y_from_x_unchecked d _ ymin ymax Hinv Hasc Hne Eymin Eymax).
    cbv zeta. cbn [length Nat.eqb map hd]. unfold filled.
    now rewrite Hhi, Hlo, Hval. }
  destruct bounds_error; [| exact Hunchecked].
  rewrite <- Hunchecked. unfold y_from_x.
  destruct (np_max (x d)) as [dmax | e] eqn:Edmax;
    [| destruct (x d); [contradiction | discriminate]].
  destruct (np_min (x d)) as [dmin | e] eqn:Edmin;
    [| destruct (x d); [contradiction | discriminate]].
  unfold max_x, min_x. rewrite Edmax, Edmin. cbn [np_max np_min fold_left bind].
  rewrite (ascending_max_last (x d) dmax Hasc Edmax), Hhi.
  rewrite (ascending_min_hd (x d) dmin Hasc Edmin), Hlo.
  reflexivity.
Qed.

Lemma y_from_x_at_sample_witness :
  y_from_x squares [of_Z 3] true = Ok (Scalar (of_Z 9)).
Proof.
  exact (y_from_x_at_sample squares 3 true (data_of_rows_invariant _)
           eq_refl ltac:(simpl; lia)).
Defined.

(** ** Saving *)

Lemma well_formed_1d_size (a : ndarray) :
  well_formed_1d a -> ndim a = 1%nat /\ size a = length (data a).
Proof.
  unfold well_formed_1d, ndim, size. intros ->. cbn. split; [reflexivity |].
  apply Nat.mul_1_r.
Qed.

Lemma max_length_loop_arrays (arrays : list ndarray) : forall acc,
  (forall a, In a arrays -> well_formed_1d a) ->
  exists m,
    max_length_loop (map PyArray arrays) acc = Ok m /\
    (acc <= m)%nat /\
    (forall a, In a arrays -> (length (data a) <= m)%nat) /\
    (m = acc \/ exists a, In a arrays /\ length (data a) = m).
Proof.
  induction arrays as [| a arrays IH]; intros acc Hwf.
  - exists acc. cbn. repeat split; [lia | intros a [] | now left].
  - destruct (well_formed_1d_size a (Hwf a (or_introl eq_refl)))
      as [Hdim Hsize].
    cbn [map max_length_loop]. rewrite Hdim, Hsize. cbn [Nat.eqb negb].
    destruct (IH (if (acc <? length (data a))%nat
                  then length (data a) else acc))
      as (m & Hm & Hacc & Hall & Hsome).
    { intros a' Ha'. apply Hwf. now right. }
    exists m. split; [exact Hm |].
    destruct (Nat.ltb_spec acc (length (data a))) as [Hlt | Hge].
    + split; [lia |]. split.
      * intros a' [<- | Ha']; [lia | now apply Hall].
      * right. destruct Hsome as [-> | (a' & Ha' & E)].
        -- exists a. split; [now left | reflexivity].
        -- exists a'. split; [now right | exact E].
    + split; [lia |]. split.
      * intros a' [<- | Ha']; [lia | now apply Hall].
      * destruct Hsome as [-> | (a' & Ha' & E)]; [now left |].
        right. exists a'. split; [now right | exact E].
Qed.

(** X25.  [save_arrays] on 1-D arrays, one name per array, hands to pandas
    one column per array under the given names: every column has the
    length of the longest array and holds its array followed by NaN
    only. *)
Theorem save_arrays_pads (arrays : list ndarray)
  (names : list String.string) :
  (forall a, In a arrays -> well_formed_1d a) ->
  arrays <> [] -> length arrays = length names ->
  exists m,
    save_arrays (map PyArray arrays) names
    = Ok (mk_frame names (map (fun a => np_pad a m) arrays)) /\
    (exists a, In a arrays /\ length (data a) = m) /\
    forall a, In a arrays ->
      length (np_pad a m) = m /\
      firstn (length (data a)) (np_pad a m) = data a /\
      skipn (length (data a)) (np_pad a m)
      = repeat NaN (m - length (data a)).
Proof.
  intros Hwf Hne Hlen.
  destruct (max_length_loop_arrays arrays 0 Hwf)
    as (m & Hm & _ & Hall & Hsome).
  exists m. split; [| split].
  - unfold save_arrays. rewrite length_map, Hlen, Nat.eqb_refl.
    cbn [negb]. rewrite Hm. cbn [bind]. rewrite map_map.
    destruct arrays as [| a arrays]; [contradiction | reflexivity].
  - destruct Hsome as [-> | H]; [| exact H].
    destruct arrays as [| a arrays]; [contradiction |].
    exists a. split; [now left |].
    pose proof (Hall a (or_introl eq_refl)). lia.
  - intros a Ha. unfold np_pad.
    destruct (well_formed_1d_size a (Hwf a Ha)) as [_ ->].
    pose proof (Hall a Ha) as Hle.
    split; [rewrite length_app, repeat_length; lia |].
    split.
    + rewrite firstn_app, Nat.sub_diag, firstn_all. cbn [firstn].
      apply app_nil_r.
    + rewrite skipn_app, Nat.sub_diag, skipn_all. reflexivity.
Qed.

Lemma save_arrays_pads_witness :
  exists m,
    save_arrays [PyArray (arr1 [of_Z 1; of_Z 2; of_Z 3]);
                 PyArray (arr1 [of_Z 7])]
      [String.EmptyString; String.EmptyString]
    = Ok (mk_frame [String.EmptyString; String.EmptyString]
            (map (fun a => np_pad a m)
               [arr1 [of_Z 1; of_Z 2; of_Z 3]; arr1 [of_Z 7]])) /\
    exists a, In a [arr1 [of_Z 1; of_Z 2; of_Z 3]; arr1 [of_Z 7]] /\
              length (data a) = m.
Proof.
  destruct (save_arrays_pads
              [arr1 [of_Z 1; of_Z 2; of_Z 3]; arr1 [of_Z 7]]
              [String.EmptyString; String.EmptyString])
    as (m & Hm & Hsome & _).
  - intros a [<- | [<- | []]]; reflexivity.
  - discriminate.
  - reflexivity.
  - exists m. split; [exact Hm | exact Hsome].
Defined.

(** X26.  [save_arrays] raises [ValueError] when the two lists differ in
    length, when an element is not a [ndarray] or is not 1-D, and when the
    lists are empty. *)
Theorem save_arrays_errors (array_list : list pyobject)
  (column_names : list String.string) :
  (length array_list <> length column_names ->
   save_arrays array_list column_names = Raise ValueError) /\
  ((exists obj, In obj array_list /\
                match obj with
                | PyArray a => ndim a <> 1%nat
                | _ => True
                end) ->
   save_arrays array_list column_names = Raise ValueError) /\
  save_arrays [] [] = Raise ValueError.
Proof.
  split; [| split; [| reflexivity]].
  - intros H. unfold save_arrays.
    destruct (Nat.eqb_spec (length array_list) (length column_names));
      [contradiction | reflexivity].
  - intros (obj & Hin & Hbad). unfold save_arrays.
    destruct (negb _); [reflexivity |].
    assert (Hloop : forall acc,
              max_length_loop array_list acc = Raise ValueError).
    { induction array_list as [| o l IH]; intros acc; [destruct Hin |].
      cbn [max_length_loop].
      destruct Hin as [-> | Hin].
      - destruct obj as [? | a |]; try reflexivity.
        destruct (Nat.eqb_spec (ndim a) 1); [contradiction | reflexivity].
      - destruct o as [? | a |]; try reflexivity.
        destruct (negb _); [reflexivity | now apply IH]. }
    now rewrite Hloop.
Qed.

Lemma save_arrays_errors_witness :
  save_arrays [PyArray (arr1 [of_Z 1])] [] = Raise ValueError /\
  save_arrays [PyArray (arr1 [of_Z 1]); PyData squares]
    [String.EmptyString; String.EmptyString] = Raise ValueError.
Proof.
  split.
  - apply (proj1 (save_arrays_errors [PyArray (arr1 [of_Z 1])] [])).
    discriminate.
  - apply (proj1 (proj2 (save_arrays_errors
                           [PyArray (arr1 [of_Z 1]); PyData squares]
                           [String.EmptyString; String.EmptyString]))).
    exists (PyData squares). split; [right; now left | exact I].
Defined.





